(** * Energy-aware streaming session engine of the ai4all chat dashboard

    A shallow embedding of the front-end logic in [App.tsx], [ChatPane.tsx],
    [StudyControls.tsx], [ChatHistory.tsx] and [api.ts], and the properties
    of its energy telemetry monitor, study-session state machine, mode
    resolution and chat submission path.

    Conventions of the embedding.
    - A JavaScript [number] is an IEEE 754 binary64 value: Rocq's primitive
      [float].  [a > b] is [PrimFloat.ltb b a], and [!==] on two numbers is
      the negation of [PrimFloat.eqb].
    - [Date.now()] is an integer number of milliseconds: [Z].
    - A string is a sequence of one-byte code units: the code units below
      256.  The fixed texts of the source that hold a character outside
      that range are kept as the bytes the source file has for them; the
      code only appends and shows them.
    - [string | null | undefined] is [option string]; [None] stands for both
      [null] and [undefined] wherever the code does not tell them apart.
      Where it does, in the test [inference_time_ms !== undefined] of
      [streamChat], the absent key and [null] are kept apart.
    - React state is a record; a handler is a function from the record to
      the record it leaves behind once its state updates are committed.
      Handlers run one at a time, each to its end, and a state updater runs
      once.
    - [localStorage] is a finite map from keys to strings; requests to the
      backend are kept in lists, in the order they are sent. *)

From Stdlib Require Import ZArith List Bool Ascii String Floats.
From stdpp Require Import base option list strings gmap.
Import ListNotations.

#[local] Set Warnings "-inexact-float".
#[local] Open Scope string_scope.
#[local] Open Scope list_scope.

(** ** JavaScript values *)

Module JS.

(** [number]. *)
Definition number : Type := float.

(** [a > b] on numbers. *)
Definition gt (a b : number) : bool := PrimFloat.ltb b a.

(** [a <= b] on numbers. *)
Definition le (a b : number) : bool := PrimFloat.leb a b.

(** [a === b] on numbers. *)
Definition strict_eq (a b : number) : bool := PrimFloat.eqb a b.

(** [a !== prev] where [a] is a number and [prev : number | null]:
    a number is never strictly equal to [null]. *)
Definition strict_ne_nullable (a : number) (prev : option number) : bool :=
  match prev with
  | None => true
  | Some p => negb (strict_eq a p)
  end.

(** [v ?? 0]. *)
Definition nullish_zero (v : option number) : number :=
  match v with
  | Some x => x
  | None => 0%float
  end.

(** [Math.min(a, b)]: [NaN] if either argument is [NaN]; [-0] counts as
    smaller than [+0]. *)
Definition Math_min (a b : number) : number :=
  if PrimFloat.is_nan a || PrimFloat.is_nan b then PrimFloat.nan
  else if PrimFloat.ltb a b then a
  else if PrimFloat.ltb b a then b
  else match PrimFloat.classify a with
       | NZero => a
       | _ => b
       end.

(** The length of an array as a number. *)
Definition number_of_nat (n : nat) : number :=
  PrimFloat.of_uint63 (Uint63.of_Z (Z.of_nat n)).

(** Truthiness of a [string | null | undefined]. *)
Definition truthy (v : option string) : bool :=
  match v with
  | Some s => negb (String.eqb s "")
  | None => false
  end.

(** [a || b] on [string | null | undefined]. *)
Definition or (a b : option string) : option string :=
  if truthy a then a else b.

(** Truthiness of a [number | null] holding an integer ([Date.now()]). *)
Definition truthy_time (v : option Z) : bool :=
  match v with
  | Some t => negb (Z.eqb t 0)
  | None => false
  end.

(** White space of [String.prototype.trim] and of the regular expression
    class [\s] among the one-byte code units: TAB, LF, VT, FF, CR (9 to
    13), SPACE (32) and NO-BREAK SPACE (160).  The other white space of
    ECMAScript (U+1680, U+2000 to U+200A, U+2028, U+2029, U+202F, U+205F,
    U+3000 and U+FEFF) lies above 255. *)
Definition is_space (c : ascii) : bool :=
  let n := nat_of_ascii c in
  (Nat.leb 9 n && Nat.leb n 13) || Nat.eqb n 32 || Nat.eqb n 160.

Fixpoint drop_space (s : string) : string :=
  match s with
  | EmptyString => EmptyString
  | String c r => if is_space c then drop_space r else s
  end.

Fixpoint rev_string (acc s : string) : string :=
  match s with
  | EmptyString => acc
  | String c r => rev_string (String c acc) r
  end.

(** [s.trim()]. *)
Definition trim (s : string) : string :=
  rev_string "" (drop_space (rev_string "" (drop_space s))).

(** The number of maximal runs of white space in [s]; [in_run] tells
    whether the previous code unit was white space. *)
Fixpoint space_runs (in_run : bool) (s : string) : nat :=
  match s with
  | EmptyString => 0
  | String c r =>
      if is_space c
      then (if in_run then space_runs true r else S (space_runs true r))
      else space_runs false r
  end.

(** [s.split(/\s+/).length]: one piece more than there are separators. *)
Definition split_space_length (s : string) : nat := S (space_runs false s).

(** *** Specification floats *)

(** A specification float that is not [NaN] and, unless it is a zero,
    has sign [s]. *)
Definition signed (s : bool) (x : spec_float) : Prop :=
  match x with
  | S754_zero _ => True
  | S754_infinity b => b = s
  | S754_nan => False
  | S754_finite b _ _ => b = s
  end.

(** A specification float that is not [NaN] and has sign bit [s]. *)
Definition sign_bit (s : bool) (x : spec_float) : Prop :=
  match x with
  | S754_zero b => b = s
  | S754_infinity b => b = s
  | S754_nan => False
  | S754_finite b _ _ => b = s
  end.

(** A positive finite number, such as the baselines 1.0 and 10.0. *)
Definition finite_positive (c : float) : Prop :=
  exists m e, Prim2SF c = S754_finite false m e.

End JS.

(** ** Energy telemetry monitor ([App.tsx], the [streamPower] effect) *)

Module Telemetry.

(** The summary object pushed by [/api/power/stream]; a field that is
    [null] or missing is [None]. *)
Record Summary := {
  latest_prompt_Wh : option JS.number;
  session_total_Wh : option JS.number;
  today_total_Wh : option JS.number
}.

(** The energy part of [App]'s state: the three raw readings, the rolling
    window with its last-seen ref, and the legacy sidebar metrics. *)
Record Energy := {
  kwhUsed : JS.number;
  lastPromptEnergyPct : JS.number;
  totalEnergyPct : JS.number;
  litresWater : JS.number;
  latestPromptWh : option JS.number;
  sessionTotalWh : option JS.number;
  todayTotalWh : option JS.number;
  promptWhHistory : list JS.number;
  lastPromptWhRef : option JS.number
}.

(** The [useState]/[useRef] initial values. *)
Definition initial : Energy := {|
  kwhUsed := 0%float;
  lastPromptEnergyPct := 0%float;
  totalEnergyPct := 0%float;
  litresWater := 0%float;
  latestPromptWh := None;
  sessionTotalWh := None;
  todayTotalWh := None;
  promptWhHistory := [];
  lastPromptWhRef := None
|}.

(** [next.shift()] when [next.length > 2]. *)
Definition keep_last2 (next : list JS.number) : list JS.number :=
  if Nat.ltb 2 (length next) then tail next else next.

(** The admission test [latestWh > 0 && latestWh !== prevSeen]. *)
Definition accepts (prevSeen : option JS.number) (latestWh : JS.number) : bool :=
  JS.gt latestWh 0%float && JS.strict_ne_nullable latestWh prevSeen.

(** The updater passed to [setPromptWhHistory].  It reads and writes
    [lastPromptWhRef.current], so it maps the ref and the previous window
    to the new ref and the new window; both branches leave the ref at
    [latestWh]. *)
Definition promptWhHistory_updater
    (latestWh : JS.number) (prevSeen : option JS.number)
    (prev : list JS.number) : option JS.number * list JS.number :=
  if accepts prevSeen latestWh
  then (Some latestWh, keep_last2 (prev ++ [latestWh]))
  else (Some latestWh, prev).

(** [Math.min(100, (wh / baseline) * 100)]. *)
Definition pct_vs_baseline (wh baseline : JS.number) : JS.number :=
  JS.Math_min 100%float (PrimFloat.mul (PrimFloat.div wh baseline) 100%float).

(** The callback given to [streamPower]: one telemetry push. *)
Definition onPowerUpdate (s : Summary) (e : Energy) : Energy :=
  let latestWh := JS.nullish_zero (latest_prompt_Wh s) in
  let sessionWh := JS.nullish_zero (session_total_Wh s) in
  let todayWh := JS.nullish_zero (today_total_Wh s) in
  {| kwhUsed := PrimFloat.div todayWh 1000%float;
     lastPromptEnergyPct := pct_vs_baseline latestWh 1.0%float;
     totalEnergyPct := pct_vs_baseline sessionWh 10.0%float;
     litresWater := 0%float;
     latestPromptWh := Some latestWh;
     sessionTotalWh := Some sessionWh;
     todayTotalWh := Some todayWh;
     promptWhHistory :=
       snd (promptWhHistory_updater latestWh (lastPromptWhRef e) (promptWhHistory e));
     lastPromptWhRef :=
       fst (promptWhHistory_updater latestWh (lastPromptWhRef e) (promptWhHistory e)) |}.

(** A sequence of pushes, oldest first. *)
Definition pushes (ss : list Summary) (e : Energy) : Energy :=
  fold_left (fun acc s => onPowerUpdate s acc) ss e.

(** [last2AvgWh]: the mean of the window, [null] when it is empty. *)
Definition last2AvgWh (e : Energy) : option JS.number :=
  match promptWhHistory e with
  | [] => None
  | h =>
      Some (PrimFloat.div (fold_left PrimFloat.add h 0%float)
                          (JS.number_of_nat (length h)))
  end.

(** A push that carries only a latest-prompt reading. *)
Definition reading (wh : JS.number) : Summary :=
  {| latest_prompt_Wh := Some wh; session_total_Wh := None; today_total_Wh := None |}.

(** No entry of the window equals (as a number) the entry before it. *)
Fixpoint no_repeat (w : list JS.number) : bool :=
  match w with
  | a :: ((b :: _) as r) => negb (JS.strict_eq a b) && no_repeat r
  | _ => true
  end.

(** The latest-prompt reading a push carries: [s.latest_prompt_Wh ?? 0]. *)
Definition latest_of (s : Summary) : JS.number :=
  JS.nullish_zero (latest_prompt_Wh s).

(** The readings of a sequence that pass the admission test, each tested
    against the reading just before it, the first against [prevSeen]. *)
Fixpoint accepted (prevSeen : option JS.number) (ws : list JS.number)
    : list JS.number :=
  match ws with
  | [] => []
  | w :: r =>
      if accepts prevSeen w then w :: accepted (Some w) r
      else accepted (Some w) r
  end.

(** The last two entries of a list, or all of it if it is shorter. *)
Definition last2 (l : list JS.number) : list JS.number :=
  skipn (length l - 2) l.

(** The window invariant: at most two entries, all of them positive. *)
Definition window_ok (e : Energy) : Prop :=
  length (promptWhHistory e) <= 2
  /\ Forall (fun v => JS.gt v 0%float = true) (promptWhHistory e).

(** A sample push: 0.3 Wh for the prompt, 2.4 Wh for the session. *)
Definition sample_push : Summary :=
  {| latest_prompt_Wh := Some 0.3%float; session_total_Wh := Some 2.4%float;
     today_total_Wh := Some 12.5%float |}.

End Telemetry.


(** ** Transcript messages ([ChatPane.tsx], [ChatHistory.tsx], [api.ts]) *)

Module Transcript.

Inductive Role := user | bot.

(** [InferenceMetrics] of [api.ts].  [inference_time_ms] is a number by its
    type, but [streamChat] copies what the frame holds under that key, which
    may be [null]: [None]. *)
Record InferenceMetrics := {
  inference_time_ms : option JS.number;
  energy_wh : JS.number
}.

(** [Msg] as [ChatHistory] receives it: [metrics] is optional there;
    [ChatPane] and [App] declare the same shape without it. *)
Record Msg := {
  role : Role;
  text : string;
  metrics : option InferenceMetrics
}.

(** An object literal [{ role, text }]: the [metrics] key is absent. *)
Definition msg (r : Role) (t : string) : Msg :=
  {| role := r; text := t; metrics := None |}.

(** The greeting both [ChatPane] and [handleResetAll] start from. *)
Definition greeting : Msg := msg bot "Hi! Ask me anything.".

Definition is_bot (m : Msg) : bool :=
  match role m with
  | bot => true
  | user => false
  end.

End Transcript.

(** ** Study session state machine ([App.tsx], [StudyControls.tsx]) *)

Module Study.

Inductive Group := control | intervention.

(** The session ordinal [1 | 2]. *)
Inductive Session := session1 | session2.

Definition Session_digit (s : Session) : string :=
  match s with
  | session1 => "1"
  | session2 => "2"
  end.

Record StudySettings := {
  participantId : string;
  group : Group;
  session : Session;
  taskStartedAt : option Z;
  taskEndedAt : option Z
}.

Record PromptMetric := {
  ts : Z;
  text : string;
  words : nat;
  chars : nat
}.

(** The [energy] object of a saved session. *)
Record EnergyRecord := {
  rec_latestPromptWh : option JS.number;
  rec_sessionTotalWh : option JS.number;
  rec_todayTotalWh : option JS.number;
  rec_session1TotalWh : option JS.number
}.

(** The [session] object of a saved session. *)
Record SessionRecord := {
  rec_participantId : string;
  rec_group : Group;
  rec_session : Session;
  rec_taskStartedAt : option Z;
  rec_taskEndedAt : Z;
  rec_energy : EnergyRecord
}.

(** The argument of [saveStudySession]. *)
Record Bundle := {
  name : string;
  history : list Transcript.Msg;
  metrics : list PromptMetric;
  session_record : SessionRecord
}.

(** [String(n)] and [Number(s)] on numbers and strings: the two
    conversions the session-1 snapshot goes through in [localStorage]. *)
Class NumberText := {
  String_of : JS.number -> string;
  Number_of : string -> JS.number
}.

(** [App]'s state as far as the study handlers read or write it, with the
    outside world they act on: [localStorage], and the requests sent to
    [/api/chats/save] and [/api/chat/reset]. *)
Record App := {
  energy : Telemetry.Energy;
  chatKey : Z;
  currentModel : option string;
  study : StudySettings;
  promptMetrics : list PromptMetric;
  s1TotalWh : option JS.number;
  messages : list Transcript.Msg;
  localStorage : gmap string string;
  savedSessions : list Bundle;
  chatResets : list string
}.

(** [`ai4all.study.s1TotalWh.${id}`]. *)
Definition s1TotalWh_key (id : string) : string :=
  "ai4all.study.s1TotalWh." +:+ id.

(** [participantId || "anon"]. *)
Definition or_anon (participantId : string) : string :=
  if String.eqb participantId "" then "anon" else participantId.

(** [raw ? Number(raw) : null] for [raw = localStorage.getItem(key)]. *)
Definition read_number `{NumberText} (ls : gmap string string) (key : string)
    : option JS.number :=
  match ls !! key with
  | Some raw => if String.eqb raw "" then None else Some (Number_of raw)
  | None => None
  end.

(** The initial value of [s1TotalWh] when [App] mounts; [persistedId] is
    the [participantId] of [loadPersistedStudySettings()], if any. *)
Definition initial_s1TotalWh `{NumberText} (ls : gmap string string)
    (persistedId : option string) : option JS.number :=
  read_number ls (s1TotalWh_key (or_anon (default "" persistedId))).

(** [running] of [StudyControls]:
    [!!settings.taskStartedAt && !settings.taskEndedAt]. *)
Definition running (s : StudySettings) : bool :=
  JS.truthy_time (taskStartedAt s) && negb (JS.truthy_time (taskEndedAt s)).

(** [idle]: no task timing set. *)
Definition idle (s : StudySettings) : Prop :=
  taskStartedAt s = None /\ taskEndedAt s = None.

Definition set_study (a : App) (s : StudySettings) : App :=
  {| energy := energy a; chatKey := chatKey a; currentModel := currentModel a;
     study := s; promptMetrics := promptMetrics a; s1TotalWh := s1TotalWh a;
     messages := messages a; localStorage := localStorage a;
     savedSessions := savedSessions a; chatResets := chatResets a |}.

Definition set_promptMetrics (a : App) (l : list PromptMetric) : App :=
  {| energy := energy a; chatKey := chatKey a; currentModel := currentModel a;
     study := study a; promptMetrics := l; s1TotalWh := s1TotalWh a;
     messages := messages a; localStorage := localStorage a;
     savedSessions := savedSessions a; chatResets := chatResets a |}.

Definition set_s1TotalWh (a : App) (v : option JS.number) : App :=
  {| energy := energy a; chatKey := chatKey a; currentModel := currentModel a;
     study := study a; promptMetrics := promptMetrics a; s1TotalWh := v;
     messages := messages a; localStorage := localStorage a;
     savedSessions := savedSessions a; chatResets := chatResets a |}.

(** What [loadPersistedStudySettings()] returns of the three settings it
    may hold; [None] is a missing key, or nothing persisted at all. *)
Record Persisted := {
  persisted_participantId : option string;
  persisted_group : option Group;
  persisted_session : option Session
}.

Definition nothing_persisted : Persisted :=
  {| persisted_participantId := None; persisted_group := None;
     persisted_session := None |}.

(** [App]'s state when it mounts over the storage [ls]: the [useState]
    initial values. *)
Definition mount `{NumberText} (ls : gmap string string) (p : Persisted) : App :=
  {| energy := Telemetry.initial;
     chatKey := 0;
     currentModel := None;
     study := {| participantId := default "" (persisted_participantId p);
                 group := default control (persisted_group p);
                 session := default session1 (persisted_session p);
                 taskStartedAt := None; taskEndedAt := None |};
     promptMetrics := [];
     s1TotalWh := initial_s1TotalWh ls (persisted_participantId p);
     messages := [];
     localStorage := ls;
     savedSessions := [];
     chatResets := [] |}.

(** The telemetry callback acting on [App]. *)
Definition onPowerUpdate (s : Telemetry.Summary) (a : App) : App :=
  {| energy := Telemetry.onPowerUpdate s (energy a);
     chatKey := chatKey a; currentModel := currentModel a;
     study := study a; promptMetrics := promptMetrics a; s1TotalWh := s1TotalWh a;
     messages := messages a; localStorage := localStorage a;
     savedSessions := savedSessions a; chatResets := chatResets a |}.

(** [onUserPrompt], [onHistoryChange] and [onModelChange] of [ChatPane]. *)
Definition onUserPrompt (m : PromptMetric) (a : App) : App :=
  set_promptMetrics a (promptMetrics a ++ [m]).

Definition onHistoryChange (h : list Transcript.Msg) (a : App) : App :=
  {| energy := energy a; chatKey := chatKey a; currentModel := currentModel a;
     study := study a; promptMetrics := promptMetrics a; s1TotalWh := s1TotalWh a;
     messages := h; localStorage := localStorage a;
     savedSessions := savedSessions a; chatResets := chatResets a |}.

Definition onModelChange (model : string) (a : App) : App :=
  {| energy := energy a; chatKey := chatKey a; currentModel := Some model;
     study := study a; promptMetrics := promptMetrics a; s1TotalWh := s1TotalWh a;
     messages := messages a; localStorage := localStorage a;
     savedSessions := savedSessions a; chatResets := chatResets a |}.

(** What reaches [App] between two clicks on the study controls: a prompt
    is recorded, a telemetry push arrives, the transcript changes, or a
    model is reported as in use. *)
Inductive Event :=
| UserPrompt (m : PromptMetric)
| PowerUpdate (s : Telemetry.Summary)
| HistoryChange (h : list Transcript.Msg)
| ModelChange (model : string).

Definition on_event (ev : Event) (a : App) : App :=
  match ev with
  | UserPrompt m => onUserPrompt m a
  | PowerUpdate s => onPowerUpdate s a
  | HistoryChange h => onHistoryChange h a
  | ModelChange model => onModelChange model a
  end.

(** A sequence of such events, oldest first. *)
Definition on_events (es : list Event) (a : App) : App :=
  fold_left (fun acc ev => on_event ev acc) es a.

(** [handleStudyChange(next)].  [next] is built by [StudyControls] as
    [{ ...settings, participantId, group, session }], so it has every key
    and [{ ...s, ...next }] is [next]. *)
Definition handleStudyChange `{NumberText} (next : StudySettings) (a : App) : App :=
  let a' := set_study a next in
  if negb (String.eqb (participantId next) "")
     && negb (String.eqb (participantId next) (participantId (study a)))
  then set_s1TotalWh a'
         (read_number (localStorage a) (s1TotalWh_key (participantId next)))
  else a'.

(** [handleStartTask()], with [now = Date.now()]. *)
Definition handleStartTask (now : Z) (a : App) : App :=
  let s := study a in
  set_promptMetrics
    (set_study a
       {| participantId := participantId s; group := group s; session := session s;
          taskStartedAt := Some now; taskEndedAt := None |})
    [].

(** [handleEndTask()], with [endedAt = Date.now()].  The bundle is built
    from the values of the render the handler was created in, so its
    [session1TotalWh] is the one from before this call. *)
Definition handleEndTask `{NumberText} (endedAt : Z) (a : App) : App :=
  let s := study a in
  let study' :=
    {| participantId := participantId s; group := group s; session := session s;
       taskStartedAt := taskStartedAt s; taskEndedAt := Some endedAt |} in
  let snapshot :=
    match session s, Telemetry.sessionTotalWh (energy a) with
    | session1, Some wh => Some wh
    | _, _ => None
    end in
  let sessionName :=
    JS.trim (or_anon (participantId s)) +:+ "_s" +:+ Session_digit (session s) in
  let bundle :=
    {| name := sessionName;
       history := messages a;
       metrics := promptMetrics a;
       session_record :=
         {| rec_participantId := participantId s;
            rec_group := group s;
            rec_session := session s;
            rec_taskStartedAt := taskStartedAt s;
            rec_taskEndedAt := endedAt;
            rec_energy :=
              {| rec_latestPromptWh := Telemetry.latestPromptWh (energy a);
                 rec_sessionTotalWh := Telemetry.sessionTotalWh (energy a);
                 rec_todayTotalWh := Telemetry.todayTotalWh (energy a);
                 rec_session1TotalWh := s1TotalWh a |} |} |} in
  {| energy := energy a; chatKey := chatKey a; currentModel := currentModel a;
     study := study';
     promptMetrics := promptMetrics a;
     s1TotalWh := match snapshot with Some wh => Some wh | None => s1TotalWh a end;
     messages := messages a;
     localStorage :=
       match snapshot with
       | Some wh =>
           <[s1TotalWh_key (or_anon (participantId s)) := String_of wh]>
             (localStorage a)
       | None => localStorage a
       end;
     savedSessions := savedSessions a ++ [bundle];
     chatResets := chatResets a |}.

(** The energy state after step 4 of [handleResetAll]. *)
Definition cleared_energy : Telemetry.Energy :=
  {| Telemetry.kwhUsed := 0%float;
     Telemetry.lastPromptEnergyPct := 0%float;
     Telemetry.totalEnergyPct := 0%float;
     Telemetry.litresWater := 0%float;
     Telemetry.latestPromptWh := None;
     Telemetry.sessionTotalWh := None;
     Telemetry.todayTotalWh := None;
     Telemetry.promptWhHistory := [];
     Telemetry.lastPromptWhRef := None |}.

(** [handleResetAll()].  The request to [/api/chat/reset] is sent when a
    model is known; its failure is caught and only logged. *)
Definition handleResetAll (a : App) : App :=
  let s := study a in
  {| energy := cleared_energy;
     chatKey := (chatKey a + 1)%Z;
     currentModel := currentModel a;
     study :=
       {| participantId := participantId s; group := group s; session := session s;
          taskStartedAt := None; taskEndedAt := None |};
     promptMetrics := [];
     s1TotalWh := s1TotalWh a;
     messages := [Transcript.greeting];
     localStorage := localStorage a;
     savedSessions := savedSessions a;
     chatResets :=
       match currentModel a with
       | Some m => if String.eqb m "" then chatResets a else chatResets a ++ [m]
       | None => chatResets a
       end |}.

(** The three buttons of [StudyControls]: Start is [disabled={running}],
    End is [disabled={!running}], Reset is [disabled={running}]; a disabled
    button does not call its handler. *)
Definition click_Start (now : Z) (a : App) : App :=
  if running (study a) then a else handleStartTask now a.

Definition click_End `{NumberText} (now : Z) (a : App) : App :=
  if running (study a) then handleEndTask now a else a.

Definition click_Reset (a : App) : App :=
  if running (study a) then a else handleResetAll a.

(** What [StudyControls] shows as "Session-1 total energy":
    [session === 2 && typeof s1TotalWh === "number"]. *)
Definition session1_reference (a : App) : option JS.number :=
  match session (study a) with
  | session2 => s1TotalWh a
  | session1 => None
  end.

(** *** A sample session *)

(** [String] and [Number] on the two numbers of the sample: 2.4 prints as
    ["2.4"] and everything else as ["0"]; ["2.4"] reads as 2.4 and everything
    else as 0. *)
Definition sample_text : NumberText :=
  {| String_of := fun x => if PrimFloat.eqb x 2.4%float then "2.4" else "0";
     Number_of := fun s => if String.eqb s "2.4" then 2.4%float else 0%float |}.

(** Participant "P1" in the first session over an empty storage, the task
    started at time 1000, after a push that reports 2.4 Wh for the session. *)
Definition sample_session1 : App :=
  onPowerUpdate Telemetry.sample_push
    (click_Start 1000
       (@mount sample_text ∅
          {| persisted_participantId := Some "P1"; persisted_group := None;
             persisted_session := None |})).

(** A later mount over the storage session 1 left behind, with no settings
    persisted and no telemetry push received. *)
Definition sample_later : App :=
  @mount sample_text
    (localStorage (@handleEndTask sample_text 2000 sample_session1))
    nothing_persisted.

(** The settings [StudyControls] sends for "P1" in the second session. *)
Definition sample_next : StudySettings :=
  {| participantId := "P1"; group := control; session := session2;
     taskStartedAt := None; taskEndedAt := None |}.

(** The settings [StudyControls] sends after the task that ended at 2000,
    once the id field has been emptied, and then once the second session
    has been chosen. *)
Definition sample_emptied : StudySettings :=
  {| participantId := ""; group := control; session := session1;
     taskStartedAt := Some 1000%Z; taskEndedAt := Some 2000%Z |}.

Definition sample_cleared : StudySettings :=
  {| participantId := ""; group := control; session := session2;
     taskStartedAt := Some 1000%Z; taskEndedAt := Some 2000%Z |}.

(** What [loadPersistedStudySettings()] returns of those settings. *)
Definition sample_cleared_persisted : Persisted :=
  {| persisted_participantId := Some ""; persisted_group := Some control;
     persisted_session := Some session2 |}.

End Study.

(** ** Mode resolution registry ([App.tsx], [api.ts]) *)

Module Modes.

(** [ModeKey] of [api.ts]. *)
Inductive ModeKey := chat | vibe_coding | image | web.

#[export] Instance ModeKey_eq_dec : EqDecision ModeKey.
Proof. solve_decision. Defined.

Definition ModeKey_code (k : ModeKey) : nat :=
  match k with
  | chat => 0
  | vibe_coding => 1
  | image => 2
  | web => 3
  end.

Definition ModeKey_of_code (n : nat) : option ModeKey :=
  match n with
  | 0 => Some chat
  | 1 => Some vibe_coding
  | 2 => Some image
  | 3 => Some web
  | _ => None
  end.

#[export] Instance ModeKey_countable : Countable ModeKey.
Proof.
  apply (inj_countable ModeKey_code ModeKey_of_code).
  intros []; reflexivity.
Defined.

(** [ModeInfo] of [api.ts]; [default_model] is its key [default]. *)
Record ModeInfo := {
  default_model : string;
  installed : bool;
  fast : option string;
  fast_installed : option bool;
  thinking : option string;
  thinking_installed : option bool
}.

(** The registry part of [App]'s state: the two chat presets, the backend
    defaults ([null] until loaded) and the per-mode overrides. *)
Record Registry := {
  fastModel : option string;
  deepModel : option string;
  modeDefaults : option (gmap ModeKey ModeInfo);
  modeOverrides : gmap ModeKey string
}.

(** [modeDefaults?.[k]?.default]. *)
Definition backend_default (r : Registry) (k : ModeKey) : option string :=
  match modeDefaults r with
  | Some d => default_model <$> (d !! k)
  | None => None
  end.

(** [modeOverrides[k] || modeDefaults?.[k]?.default]: [vibeModel],
    [webModel], [imageModel] and [chatModeModel]. *)
Definition mode_model (r : Registry) (k : ModeKey) : option string :=
  JS.or (modeOverrides r !! k) (backend_default r k).

Definition chatModeModel (r : Registry) : option string := mode_model r chat.

(** [onModeOverrideChange(mode, model)]. *)
Definition onModeOverrideChange (mode : ModeKey) (model : option string)
    (r : Registry) : Registry :=
  {| fastModel := fastModel r; deepModel := deepModel r;
     modeDefaults := modeDefaults r;
     modeOverrides :=
       match model with
       | Some m =>
           if String.eqb m "" then delete mode (modeOverrides r)
           else <[mode := m]> (modeOverrides r)
       | None => delete mode (modeOverrides r)
       end |}.

End Modes.

(** ** Chat pane and streaming response consumer ([ChatPane.tsx], [api.ts]) *)

Module Chat.

Import Transcript.

Inductive ThinkingMode := fast | deep.

(** The model props of [ChatPane]. *)
Record Props := {
  model : option string;
  fastModel : option string;
  deepModel : option string
}.

(** The props [App] renders [ChatPane] with:
    [model={chatModeModel || undefined}], [fastModel={fastModel || undefined}],
    [deepModel={deepModel || undefined}]. *)
Definition props_of (r : Modes.Registry) : Props :=
  {| model := JS.or (Modes.chatModeModel r) None;
     fastModel := JS.or (Modes.fastModel r) None;
     deepModel := JS.or (Modes.deepModel r) None |}.

(** [activeModel]. *)
Definition activeModel (thinkingMode : ThinkingMode) (p : Props) : option string :=
  match thinkingMode with
  | deep => JS.or (deepModel p) (model p)
  | fast => JS.or (fastModel p) (model p)
  end.

(** The model a chat submission uses, from [App]'s registry. *)
Definition effective_chat_model (thinkingMode : ThinkingMode) (r : Modes.Registry)
    : option string :=
  activeModel thinkingMode (props_of r).

(** *** The response stream *)

(** The JSON object of one [data:] frame, as far as [streamChat] reads it.
    [error], [delta] and [done] are read for their truthiness and
    [energy_wh] through [?? 0], so [None] is [null] or the absent key.
    [inference_time_ms] is compared with [undefined]: [None] is the absent
    key, [Some None] is [null] and [Some (Some t)] is the number [t]. *)
Record Payload := {
  error : option string;
  delta : option string;
  done : bool;
  inference_time_ms : option (option JS.number);
  energy_wh : option JS.number
}.

(** One piece of [chunk.split("\n\n")]: it does not start with [data:], or
    its JSON does not parse, or it parses to a payload. *)
Inductive Line :=
| NotData
| Malformed
| Data (p : Payload).

(** How the body ends: [reader.read()] reports [done], or it rejects. *)
Inductive Ending := Closed | ReadError.

(** What [fetch] gives: a rejection, or a body read chunk by chunk. *)
Inductive Response :=
| FetchRejected
| Body (chunks : list (list Line)) (ending : Ending).

(** The promise [streamChat] returns. *)
Inductive Outcome :=
| Resolved (m : option InferenceMetrics)
| Rejected.

Section StreamChat.

(** The state the callbacks act on, [onDelta], and the optional
    [onComplete]. *)
Context {S : Type}.
Variable onDelta : string -> S -> S.
Variable onComplete : option (InferenceMetrics -> S -> S).

(** The body of the [for] loop for one parsed payload; [None] is a
    [throw]. *)
Definition on_payload (p : Payload) (acc : S * option InferenceMetrics)
    : option (S * option InferenceMetrics) :=
  let '(s, m) := acc in
  if JS.truthy (error p) then None
  else
    let s1 := match delta p with
              | Some d => if String.eqb d "" then s else onDelta d s
              | None => s
              end in
    match done p, inference_time_ms p with
    | true, Some t =>
        let m' := {| Transcript.inference_time_ms := t;
                     Transcript.energy_wh := JS.nullish_zero (energy_wh p) |} in
        Some (match onComplete with
              | Some k => k m' s1
              | None => s1
              end, Some m')
    | _, _ => Some (s1, m)
    end.

(** The [for] loop over the lines of one chunk.  A [throw] keeps the
    state the callbacks had reached. *)
Fixpoint on_lines (ls : list Line) (acc : S * option InferenceMetrics)
    : S * option (option InferenceMetrics) :=
  match ls with
  | [] => (fst acc, Some (snd acc))
  | NotData :: r => on_lines r acc
  | Malformed :: _ => (fst acc, None)
  | Data p :: r =>
      match on_payload p acc with
      | Some acc' => on_lines r acc'
      | None => (fst acc, None)
      end
  end.

(** The [while (true)] loop over the chunks. *)
Fixpoint on_chunks (cs : list (list Line)) (ending : Ending)
    (acc : S * option InferenceMetrics) : S * Outcome :=
  match cs with
  | [] =>
      match ending with
      | Closed => (fst acc, Resolved (snd acc))
      | ReadError => (fst acc, Rejected)
      end
  | c :: r =>
      match on_lines c acc with
      | (s, Some m) => on_chunks r ending (s, m)
      | (s, None) => (s, Rejected)
      end
  end.

(** [streamChat(request, onDelta, onComplete)] against the response the
    backend gives. *)
Definition streamChat (resp : Response) (s : S) : S * Outcome :=
  match resp with
  | FetchRejected => (s, Rejected)
  | Body cs ending => on_chunks cs ending (s, None)
  end.

End StreamChat.

(** *** [handleSend] *)

(** The form fields of one call of [streamChat]. *)
Record Request := {
  req_prompt : string;
  req_model : string;
  req_files : list string;
  req_thinkingMode : ThinkingMode
}.

(** [ChatPane]'s state as far as [handleSend] reads or writes it. *)
Record Pane := {
  messages : list Msg;
  files : list string;
  thinkingMode : ThinkingMode;
  isStreaming : bool
}.

(** What one call of [handleSend] does outside the pane: the requests it
    sends, and its calls of [onUserPrompt] and [onModelChange]. *)
Record Effects := {
  requests : list Request;
  userPrompts : list Study.PromptMetric;
  modelChanges : list string
}.

Definition no_effects : Effects :=
  {| requests := []; userPrompts := []; modelChanges := [] |}.

Definition guidance : string :=
  "I don�t know which chat model to use yet. " +:+
  "Open the Models tab and set a Chat model (or override) first.".

Definition apology : string :=
  "Sorry, something went wrong while generating a response.".

Definition set_messages (p : Pane) (m : list Msg) : Pane :=
  {| messages := m; files := files p; thinkingMode := thinkingMode p;
     isStreaming := isStreaming p |}.

Definition set_isStreaming (p : Pane) (b : bool) : Pane :=
  {| messages := messages p; files := files p; thinkingMode := thinkingMode p;
     isStreaming := b |}.

(** [m[m.length - 1]?.role === "bot" ? m.slice(0, -1) : m]. *)
Definition withoutBotTail (m : list Msg) : list Msg :=
  match last m with
  | Some l => if is_bot l then removelast m else m
  | None => m
  end.

(** The [onDelta] callback of [handleSend], on the local [acc] and the
    pane's messages. *)
Definition handleSend_onDelta (d : string) (s : string * list Msg)
    : string * list Msg :=
  let acc := fst s +:+ d in
  (acc, withoutBotTail (snd s) ++ [msg bot acc]).

(** [handleSend(text)], with [now = Date.now()] and the response the
    backend gives to the request, if one is sent. *)
Definition handleSend (now : Z) (resp : Response) (props : Props)
    (text : string) (p : Pane) : Pane * Effects :=
  let trimmed := JS.trim text in
  if String.eqb trimmed "" then (p, no_effects)
  else
    match activeModel (thinkingMode p) props with
    | Some m =>
        if String.eqb m ""
        then (set_messages p (messages p ++ [msg bot guidance]), no_effects)
        else
          let metric :=
            {| Study.ts := now; Study.text := text;
               Study.words := if Nat.eqb (String.length trimmed) 0 then 0
                              else JS.split_space_length trimmed;
               Study.chars := String.length text |} in
          let request :=
            {| req_prompt := text; req_model := m; req_files := files p;
               req_thinkingMode := thinkingMode p |} in
          let '((_, msgs), outcome) :=
            streamChat handleSend_onDelta None resp
              ("", messages p ++ [msg user text]) in
          let msgs' :=
            match outcome with
            | Resolved _ => msgs
            | Rejected => msgs ++ [msg bot apology]
            end in
          (set_isStreaming (set_messages p msgs') false,
           {| requests := [request]; userPrompts := [metric];
              modelChanges := [m] |})
    | None =>
        (set_messages p (messages p ++ [msg bot guidance]), no_effects)
    end.

(** The metrics of the last message of a transcript, if it has any. *)
Definition final_metrics (m : list Msg) : option InferenceMetrics :=
  match last m with
  | Some l => metrics l
  | None => None
  end.

(** *** What a well-formed stream carries *)

(** The metrics a payload gives when it is a terminal frame:
    [payload.done && payload.inference_time_ms !== undefined]. *)
Definition terminal_metrics (p : Payload) : option InferenceMetrics :=
  match done p, inference_time_ms p with
  | true, Some t =>
      Some {| Transcript.inference_time_ms := t;
              Transcript.energy_wh := JS.nullish_zero (energy_wh p) |}
  | _, _ => None
  end.

(** A line that makes [streamChat] throw: JSON that does not parse, or a
    payload with a truthy [error]. *)
Definition throws (l : Line) : bool :=
  match l with
  | NotData => false
  | Malformed => true
  | Data p => JS.truthy (error p)
  end.

(** The metrics of the last terminal frame among [ls], or [m] if there is
    none. *)
Fixpoint last_terminal (ls : list Line) (m : option InferenceMetrics)
    : option InferenceMetrics :=
  match ls with
  | [] => m
  | Data p :: r =>
      last_terminal r (match terminal_metrics p with Some x => Some x | None => m end)
  | _ :: r => last_terminal r m
  end.

(** No message of the transcript carries metrics. *)
Definition no_metrics (m : list Msg) : Prop :=
  Forall (fun x => metrics x = None) m.

(** *** A sample exchange *)

(** A stream of two chunks: the delta ["Hi"], then the terminal frame with
    1200 ms and 0.05 Wh. *)
Definition sample_stream : Response :=
  Body [ [Data {| error := None; delta := Some "Hi"; done := false;
                  inference_time_ms := None; energy_wh := None |}];
         [Data {| error := None; delta := None; done := true;
                  inference_time_ms := Some (Some 1200%float);
                  energy_wh := Some 0.05%float |}] ]
       Closed.

(** The pane as it mounts. *)
Definition mounted : Pane :=
  {| messages := [greeting]; files := []; thinkingMode := fast; isStreaming := false |}.

(** A registry with a chat override, a backend default and a deep preset. *)
Definition sample_registry : Modes.Registry :=
  {| Modes.fastModel := None;
     Modes.deepModel := Some "qwen3:8b";
     Modes.modeDefaults :=
       Some {[ Modes.chat :=
                 {| Modes.default_model := "llama3.1"; Modes.installed := true;
                    Modes.fast := None; Modes.fast_installed := None;
                    Modes.thinking := None; Modes.thinking_installed := None |} ]};
     Modes.modeOverrides := {[ Modes.chat := "mistral" ]} |}.

(** A registry with nothing loaded and nothing set. *)
Definition empty_registry : Modes.Registry :=
  {| Modes.fastModel := None; Modes.deepModel := None;
     Modes.modeDefaults := None; Modes.modeOverrides := ∅ |}.

End Chat.

(** ** Chat presets: storage and seeding ([App.tsx]) *)

Module Presets.

Import Modes.

Definition fastModel_key : string := "ai4all.chat.fastModel".
Definition deepModel_key : string := "ai4all.chat.deepModel".

(** The [useState] initializer of a preset:
    [localStorage.getItem(key) || null]. *)
Definition load_preset (ls : gmap string string) (key : string) : option string :=
  JS.or (ls !! key) None.

(** The effect that follows a preset:
    [if (v) localStorage.setItem(key, v) else localStorage.removeItem(key)]. *)
Definition persist_preset (key : string) (v : option string)
    (ls : gmap string string) : gmap string string :=
  match v with
  | Some m => if String.eqb m "" then delete key ls else <[key := m]> ls
  | None => delete key ls
  end.

(** The two effects, for the fast and the deep preset of a registry. *)
Definition persist (r : Registry) (ls : gmap string string) : gmap string string :=
  persist_preset deepModel_key (deepModel r)
    (persist_preset fastModel_key (fastModel r) ls).

(** The registry when [App] mounts over the storage [ls]; [overrides] is
    what [JSON.parse] gives for the stored override map, or the empty map. *)
Definition mount (ls : gmap string string) (overrides : gmap ModeKey string)
    : Registry :=
  {| fastModel := load_preset ls fastModel_key;
     deepModel := load_preset ls deepModel_key;
     modeDefaults := None;
     modeOverrides := overrides |}.

(** [setFastModel] and [setDeepModel], as [ModelManagerPane] calls them. *)
Definition setFastModel (v : option string) (r : Registry) : Registry :=
  {| fastModel := v; deepModel := deepModel r;
     modeDefaults := modeDefaults r; modeOverrides := modeOverrides r |}.

Definition setDeepModel (v : option string) (r : Registry) : Registry :=
  {| fastModel := fastModel r; deepModel := v;
     modeDefaults := modeDefaults r; modeOverrides := modeOverrides r |}.

(** The [then] branch of the mount effect, run when [getModeDefaults()]
    resolves with [defaults].  The effect has no dependencies, so the
    [fastModel] and [deepModel] it tests are those of the mount render,
    [mountFast] and [mountDeep], while [r] is the registry at that time. *)
Definition onModeDefaults (mountFast mountDeep : option string)
    (defaults : gmap ModeKey ModeInfo) (r : Registry) : Registry :=
  match defaults !! chat with
  | Some chatDefaults =>
      {| fastModel :=
           if negb (JS.truthy mountFast) && JS.truthy (fast chatDefaults)
           then fast chatDefaults else fastModel r;
         deepModel :=
           if negb (JS.truthy mountDeep) && JS.truthy (thinking chatDefaults)
           then thinking chatDefaults else deepModel r;
         modeDefaults := Some defaults;
         modeOverrides := modeOverrides r |}
  | None =>
      {| fastModel := fastModel r; deepModel := deepModel r;
         modeDefaults := Some defaults; modeOverrides := modeOverrides r |}
  end.

(** Mounting over [ls] and then receiving the backend defaults. *)
Definition mount_then_defaults (ls : gmap string string)
    (overrides : gmap ModeKey string) (defaults : gmap ModeKey ModeInfo)
    : Registry :=
  onModeDefaults (load_preset ls fastModel_key) (load_preset ls deepModel_key)
    defaults (mount ls overrides).

(** A backend configuration for the chat mode with both presets declared. *)
Definition sample_defaults : gmap ModeKey ModeInfo :=
  {[ chat := {| default_model := "llama3.1"; installed := true;
                fast := Some "llama3.2:1b"; fast_installed := Some true;
                thinking := Some "deepseek-r1"; thinking_installed := Some false |} ]}.

End Presets.

(** ** Study controls: the settings effect and the task timer
    ([StudyControls.tsx]) *)

Module Controls.

Import Study.

(** [JSON.stringify] on the settings object. *)
Class SettingsText := {
  stringify_settings : StudySettings -> string
}.

(** [LS_SETTINGS_KEY]. *)
Definition LS_SETTINGS_KEY : string := "ai4all.study.settings".

Definition set_localStorage (a : App) (ls : gmap string string) : App :=
  {| energy := energy a; chatKey := chatKey a; currentModel := currentModel a;
     study := study a; promptMetrics := promptMetrics a; s1TotalWh := s1TotalWh a;
     messages := messages a; localStorage := ls;
     savedSessions := savedSessions a; chatResets := chatResets a |}.

(** The effect on [pid], [group] and [session]:
    [next = { ...settings, participantId: pid.trim(), group, session }],
    then [onSettingsChange(next)], then
    [localStorage.setItem(LS_SETTINGS_KEY, JSON.stringify(next))]. *)
Definition settings_effect `{NumberText} `{SettingsText}
    (pid : string) (g : Group) (n : Session) (a : App) : App :=
  let next :=
    {| participantId := JS.trim pid; group := g; session := n;
       taskStartedAt := taskStartedAt (study a);
       taskEndedAt := taskEndedAt (study a) |} in
  let a' := handleStudyChange next a in
  set_localStorage a' (<[LS_SETTINGS_KEY := stringify_settings next]> (localStorage a')).

(** What the experimenter and the rest of the page do to [App]: the three
    buttons, the three inputs of the settings, and the background events.
    [handleResetAll] waits for the backend before it clears anything, so
    what it clears may be cleared after later events, when the button is
    disabled again: [ResetLands] is the handler applied whatever the
    state. *)
Inductive Action :=
| Start (now : Z)
| End_ (now : Z)
| Reset
| ResetLands
| Settings (pid : string) (g : Group) (n : Session)
| Background (ev : Event).

Definition act `{NumberText} `{SettingsText} (x : Action) (a : App) : App :=
  match x with
  | Start now => click_Start now a
  | End_ now => click_End now a
  | Reset => click_Reset a
  | ResetLands => handleResetAll a
  | Settings pid g n => settings_effect pid g n a
  | Background ev => on_event ev a
  end.

(** A sequence of actions, oldest first. *)
Definition acts `{NumberText} `{SettingsText} (xs : list Action) (a : App) : App :=
  fold_left (fun acc x => act x acc) xs a.

(** The prompt metrics among a sequence of background events. *)
Definition prompts_of (es : list Event) : list PromptMetric :=
  omap (fun ev => match ev with UserPrompt m => Some m | _ => None end) es.

(** [durMs], computed at the time [now]:
    [s = taskStartedAt ?? 0], [e = taskEndedAt ?? Date.now()],
    [s ? Math.max(0, e - s) : 0].  Timestamps are integers far below 2^53,
    where this arithmetic is exact. *)
Definition durMs (now : Z) (s : StudySettings) : Z :=
  let started := default 0%Z (taskStartedAt s) in
  let ended := default now (taskEndedAt s) in
  if Z.eqb started 0 then 0%Z else Z.max 0 (ended - started).

(** [Math.floor(durMs / 60000)]. *)
Definition mins (d : Z) : Z := (d / 60000)%Z.

(** [Math.floor((durMs % 60000) / 1000)]; [%] keeps the sign of [durMs]. *)
Definition secs (d : Z) : Z := (Z.rem d 60000 / 1000)%Z.

(** What holds of [App] at any time: the rolling window is within its
    bounds; an end time is only recorded next to a start time that is set
    and not 0; and every saved session carries such a start time. *)
Definition sound (a : App) : Prop :=
  Telemetry.window_ok (energy a)
  /\ (forall t : Z, taskEndedAt (study a) = Some t ->
      JS.truthy_time (taskStartedAt (study a)) = true)
  /\ Forall (fun b => JS.truthy_time (rec_taskStartedAt (session_record b)) = true)
            (savedSessions a).

(** A serialization of the settings for the samples: the participant id
    alone. *)
Definition sample_settings_text : SettingsText :=
  {| stringify_settings := participantId |}.

End Controls.

(** ** [App] and [ChatPane] together *)

Module Wiring.

Import Study.

(** The callbacks [App] hands to [ChatPane], applied to what one
    [handleSend] did: [onUserPrompt] appends to the prompt metrics,
    [onModelChange] sets [currentModel], and the effect on [messages] calls
    [onHistoryChange] with the pane's transcript. *)
Definition deliver (eff : Chat.Effects) (pane : Chat.Pane) (a : App) : App :=
  onHistoryChange (Chat.messages pane)
    (fold_left (fun acc m => onModelChange m acc) (Chat.modelChanges eff)
       (fold_left (fun acc m => onUserPrompt m acc) (Chat.userPrompts eff) a)).

(** One submission in the chat tab: [handleSend] in the pane rendered from
    the registry [r], and its callbacks in [App]. *)
Definition send (now : Z) (resp : Chat.Response) (r : Modes.Registry)
    (text : string) (st : Chat.Pane * App) : Chat.Pane * App :=
  let '(pane', eff) := Chat.handleSend now resp (Chat.props_of r) text (fst st) in
  (pane', deliver eff pane' (snd st)).

End Wiring.

(** ** The response stream, line by line ([api.ts]) *)

Module Stream.

Import Transcript Chat.

(** The lines of a response, in the order they are read. *)
Definition lines_of (resp : Response) : list Line :=
  match resp with
  | FetchRejected => []
  | Body cs _ => concat cs
  end.

(** The lines read before the first one that throws. *)
Fixpoint before_throw (ls : list Line) : list Line :=
  match ls with
  | [] => []
  | l :: r => if throws l then [] else l :: before_throw r
  end.

(** The delta a line hands to [onDelta]: [payload.delta] when truthy. *)
Definition delta_of (l : Line) : option string :=
  match l with
  | Data p =>
      match delta p with
      | Some d => if String.eqb d "" then None else Some d
      | None => None
      end
  | _ => None
  end.

(** The deltas of the lines read before the first one that throws. *)
Definition delivered (resp : Response) : list string :=
  omap delta_of (before_throw (lines_of resp)).

(** Whether the promise rejects: [fetch] rejects, a line throws, or reading
    the body fails. *)
Definition rejects (resp : Response) : bool :=
  match resp with
  | FetchRejected => true
  | Body cs ending =>
      existsb throws (concat cs)
      || match ending with Closed => false | ReadError => true end
  end.

(** [onDelta] called on each of [ds] in turn. *)
Definition deliver_deltas {S : Type} (onDelta : string -> S -> S)
    (ds : list string) (s : S) : S :=
  fold_left (fun acc d => onDelta d acc) ds s.

(** [acc] of [handleSend] after the deltas [ds]: their concatenation. *)
Definition accumulated (ds : list string) : string :=
  fold_left (fun acc d => acc +:+ d) ds "".

(** The bot message the deltas [ds] leave in the transcript, if any. *)
Definition reply (ds : list string) : list Msg :=
  match ds with
  | [] => []
  | _ => [msg bot (accumulated ds)]
  end.

(** A stream that fails after two deltas: the error frame comes before a
    third delta and the terminal frame. *)
Definition sample_broken : Response :=
  Body [ [Data {| error := None; delta := Some "Hel"; done := false;
                  inference_time_ms := None; energy_wh := None |};
          NotData;
          Data {| error := None; delta := Some "lo"; done := false;
                  inference_time_ms := None; energy_wh := None |}];
         [Data {| error := Some "model crashed"; delta := Some "!"; done := false;
                  inference_time_ms := None; energy_wh := None |};
          Data {| error := None; delta := None; done := true;
                  inference_time_ms := Some (Some 7%float); energy_wh := None |}] ]
       Closed.

(** A stream of three frames in one chunk: a terminal frame with 7 ms, a
    frame that is done but has no [inference_time_ms], and a frame that is
    done with [inference_time_ms: null] and no [energy_wh]. *)
Definition sample_null_timing : Response :=
  Body [ [Data {| error := None; delta := Some "Hi"; done := true;
                  inference_time_ms := Some (Some 7%float);
                  energy_wh := Some 0.05%float |};
          Data {| error := None; delta := None; done := true;
                  inference_time_ms := None; energy_wh := Some 0.05%float |};
          Data {| error := None; delta := None; done := true;
                  inference_time_ms := Some None; energy_wh := None |}] ]
       Closed.

End Stream.

(** ** The chat composer ([ChatInput.tsx]) *)

Module ChatInput.

(** [doSend()] on the text of the composer: what [onSend] receives, if it
    is called, and the text the composer is left with. *)
Definition doSend (text : string) : option string * string :=
  let trimmed := JS.trim text in
  if String.eqb trimmed "" then (None, text) else (Some trimmed, "").

(** NO-BREAK SPACE, the code unit 160. *)
Definition nbsp : string := String "160"%char "".

(** The first code unit of a string is not white space. *)
Definition starts_clean (s : string) : Prop :=
  match s with
  | EmptyString => True
  | String c _ => JS.is_space c = false
  end.

(** The last code unit of a string is not white space. *)
Fixpoint ends_clean (s : string) : Prop :=
  match s with
  | EmptyString => True
  | String c EmptyString => JS.is_space c = false
  | String _ r => ends_clean r
  end.

End ChatInput.

(** ** The impact grade ([Sidebar.tsx], [ImpactLabelCard.tsx]) *)

Module Grades.

Inductive Grade := A | B | C | D | E.

Definition rank (g : Grade) : nat :=
  match g with
  | A => 0
  | B => 1
  | C => 2
  | D => 3
  | E => 4
  end.

(** The thresholds of [computeGrade], in Wh. *)
Definition grade_of (v : JS.number) : Grade :=
  if JS.le v 0.05%float then A
  else if JS.le v 0.15%float then B
  else if JS.le v 0.5%float then C
  else if JS.le v 1.5%float then D
  else E.

(** The value [computeGrade] grades: the first of [last5AvgWh],
    [sessionTotalWh] and [latestPromptWh] that is a number, else 0. *)
Definition graded_value (sessionTotalWh latestPromptWh last5AvgWh : option JS.number)
    : JS.number :=
  match last5AvgWh with
  | Some v => v
  | None =>
      match sessionTotalWh with
      | Some v => v
      | None =>
          match latestPromptWh with
          | Some v => v
          | None => 0%float
          end
      end
  end.

(** [computeGrade(sessionTotalWh, latestPromptWh, promptCount, last5AvgWh)];
    [promptCount] is a count or [undefined]. *)
Definition computeGrade (sessionTotalWh latestPromptWh : option JS.number)
    (promptCount : option nat) (last5AvgWh : option JS.number) : Grade :=
  match promptCount with
  | None => A
  | Some n =>
      if Nat.eqb n 0 || Nat.ltb n 5 then A
      else grade_of (graded_value sessionTotalWh latestPromptWh last5AvgWh)
  end.

(** The grade of the [Sidebar] that [App] renders.  [App] passes
    [sessionTotalWh], [latestPromptWh], [promptCount={promptMetrics.length}]
    and [last2AvgWh]; [Sidebar] reads the props [sessionTotalWh],
    [latestPromptWh], [promptCount] and [last5AvgWh], so its [last5AvgWh] is
    [undefined]. *)
Definition sidebar_grade (a : Study.App) : Grade :=
  computeGrade (Telemetry.sessionTotalWh (Study.energy a))
               (Telemetry.latestPromptWh (Study.energy a))
               (Some (length (Study.promptMetrics a)))
               None.

End Grades.

(** ** Pinned chats *)

(** The pinned chats of [api.ts], kept in [localStorage] under one key. *)

Module Pinned.

(** [JSON.stringify] on an array of chat names, and [JSON.parse] on the text
    the key holds: [None] where it throws.  Text that parses to something
    other than an array of strings is outside this model. *)
Class NamesText := {
  stringify_names : list string -> string;
  parse_names : string -> option (list string)
}.

(** [PINNED_CHATS_KEY]. *)
Definition PINNED_CHATS_KEY : string := "ai4all.pinnedChats".

(** [getPinnedChats()]: [raw ? JSON.parse(raw) : []], and [[]] when that
    throws. *)
Definition getPinnedChats `{NamesText} (ls : gmap string string) : list string :=
  let raw := ls !! PINNED_CHATS_KEY in
  if JS.truthy raw then default [] (raw ≫= parse_names) else [].

(** [setPinnedChats(chats)]. *)
Definition setPinnedChats `{NamesText} (chats : list string)
    (ls : gmap string string) : gmap string string :=
  <[PINNED_CHATS_KEY := stringify_names chats]> ls.

(** [l.includes(x)], and [l.indexOf(x) >= 0], on an array of strings. *)
Definition includes (x : string) (l : list string) : bool :=
  existsb (String.eqb x) l.

(** [l.splice(l.indexOf(x), 1)] where [x] occurs in [l]: the first
    occurrence goes. *)
Fixpoint remove_first (x : string) (l : list string) : list string :=
  match l with
  | [] => []
  | y :: r => if String.eqb y x then r else y :: remove_first x r
  end.

(** [togglePinnedChat(chatName)]: the value it returns and the storage it
    leaves. *)
Definition togglePinnedChat `{NamesText} (chatName : string)
    (ls : gmap string string) : bool * gmap string string :=
  let pinned := getPinnedChats ls in
  if includes chatName pinned
  then (false, setPinnedChats (remove_first chatName pinned) ls)
  else (true, setPinnedChats (chatName :: pinned) ls).

(** [isChatPinned(chatName)]. *)
Definition isChatPinned `{NamesText} (chatName : string)
    (ls : gmap string string) : bool :=
  includes chatName (getPinnedChats ls).

(** [handleTogglePin] of [ChatPane], once for each name, oldest first: the
    storage it leaves. *)
Definition toggles `{NamesText} (names : list string)
    (ls : gmap string string) : gmap string string :=
  fold_left (fun acc n => snd (togglePinnedChat n acc)) names ls.

(** Names that are stored once each: no name is included in what follows
    it. *)
Fixpoint once_each (l : list string) : Prop :=
  match l with
  | [] => True
  | y :: r => includes y r = false /\ once_each r
  end.

(** How often [x] occurs in [l]. *)
Definition times (x : string) (l : list string) : nat :=
  length (List.filter (String.eqb x) l).

(** [JSON.parse] gives back the array [JSON.stringify] was given, and the
    text of an array is never empty. *)
Definition reads_back `{NamesText} : Prop :=
  forall l : list string,
    stringify_names l <> "" /\ parse_names (stringify_names l) = Some l.

(** *** A sample serialization *)

(** Every code unit of a name after a ["c"], the name closed by [";"]. *)
Fixpoint sample_name (s : string) : string :=
  match s with
  | EmptyString => ";"
  | String ch r => String "c" (String ch (sample_name r))
  end.

Fixpoint sample_names (l : list string) : string :=
  match l with
  | [] => ""
  | n :: r => sample_name n +:+ sample_names r
  end.

Fixpoint sample_parse_go (cur : string) (acc : list string) (s : string)
    : option (list string) :=
  match s with
  | EmptyString => if String.eqb cur "" then Some (rev acc) else None
  | String a r =>
      if Ascii.eqb a ";" then sample_parse_go "" (cur :: acc) r
      else match r with
           | String ch r' => sample_parse_go (cur +:+ String ch "") acc r'
           | EmptyString => None
           end
  end.

Definition sample_names_text : NamesText :=
  {| stringify_names := fun l => String "[" (sample_names l);
     parse_names := fun s =>
       match s with
       | String a r => if Ascii.eqb a "[" then sample_parse_go "" [] r else None
       | EmptyString => None
       end |}.

End Pinned.

(** ** The web tab *)

(** [WebChatPane] and the prop [App] renders it with.  [handleSend] and
    [handleReset] wait for the backend, and the composer and the reset
    button stay enabled meanwhile: each handler is two steps, the part
    before its [await] and the part after it, and other steps may come in
    between. *)

Module WebChat.

Import Transcript.

(** What [handleSend] reads of the object [webChat] resolves to: the
    truthiness of [res.ok], and [res.response] and [res.error], strings
    where they are present. *)
Record Res := {
  ok : bool;
  response : option string;
  error : option string
}.

(** What [await webChat(...)] does: it throws, or it gives the parsed body,
    [None] for [null]. *)
Inductive Reply :=
| Throws
| Json (res : option Res).

(** The state of the pane; the calls it has made to the backend, [webChat]
    with its prompt and model and [resetWeb] with its model; and how many of
    each have not settled yet. *)
Record Pane := {
  messages : list Msg;
  isLoading : bool;
  requests : list (string * string);
  resets : list string;
  waiting : nat;
  resetting : nat
}.

Definition opening : Msg :=
  msg bot "This mode can use web tools. Ask a question and I'll search the web when it helps answer accurately.".

Definition mounted : Pane :=
  {| messages := [opening]; isLoading := false; requests := []; resets := [];
     waiting := 0; resetting := 0 |}.

Definition no_response : string := "No response from web model.".

Definition failure : string :=
  "Sorry, something went wrong while calling the web-enabled model.".

(** The warning sign and the space that start the text of an error. *)
Definition warning : string := "⚠️ ".

(** The text of the bot message [handleSend] appends. *)
Definition answer (reply : Reply) : string :=
  match reply with
  | Throws => failure
  | Json None => warning +:+ no_response
  | Json (Some r) =>
      if ok r && JS.truthy (response r) then default "" (response r)
      else warning +:+ default no_response (JS.or (error r) (Some no_response))
  end.

(** [!trimmed || !activeModel]. *)
Definition ignored (model : option string) (text : string) : bool :=
  negb (JS.truthy (Some (JS.trim text))) || negb (JS.truthy model).

(** [handleSend(text)] up to its [await], in a pane rendered with the prop
    [model]. *)
Definition submit (model : option string) (text : string) (p : Pane) : Pane :=
  if ignored model text then p
  else
    {| messages := messages p ++ [msg user (JS.trim text)];
       isLoading := true;
       requests := requests p ++ [(JS.trim text, default "" model)];
       resets := resets p;
       waiting := S (waiting p);
       resetting := resetting p |}.

(** The rest of a [handleSend] that is waiting, once [webChat] has
    settled. *)
Definition settle (reply : Reply) (p : Pane) : Pane :=
  match waiting p with
  | O => p
  | S n =>
      {| messages := messages p ++ [msg bot (answer reply)];
         isLoading := false;
         requests := requests p;
         resets := resets p;
         waiting := n;
         resetting := resetting p |}
  end.

(** [handleSend(text)] when nothing else happens while it waits. *)
Definition handleSend (model : option string) (reply : Reply) (text : string)
    (p : Pane) : Pane :=
  if ignored model text then p else settle reply (submit model text p).

Definition reset_notice : Msg :=
  msg bot "Web chat context was reset. Ask a new question to start a fresh session.".

(** [handleReset()] up to its [await]. *)
Definition reset_call (model : option string) (p : Pane) : Pane :=
  if negb (JS.truthy model) then p
  else
    {| messages := messages p;
       isLoading := isLoading p;
       requests := requests p;
       resets := resets p ++ [default "" model];
       waiting := waiting p;
       resetting := S (resetting p) |}.

(** The rest of a [handleReset] that is waiting: whether [resetWeb] threw
    or not, the transcript is replaced. *)
Definition reset_done (p : Pane) : Pane :=
  match resetting p with
  | O => p
  | S n =>
      {| messages := [reset_notice];
         isLoading := isLoading p;
         requests := requests p;
         resets := resets p;
         waiting := waiting p;
         resetting := n |}
  end.

(** [handleReset()] when nothing else happens while it waits. *)
Definition handleReset (model : option string) (p : Pane) : Pane :=
  if negb (JS.truthy model) then p else reset_done (reset_call model p).

(** The steps of the web tab, each with the registry [App] holds at that
    time: [<WebChatPane model={webModel} />]. *)
Inductive Step :=
| Submit (r : Modes.Registry) (text : string)
| Settle (reply : Reply)
| ResetCall (r : Modes.Registry)
| ResetDone.

Definition step (x : Step) (p : Pane) : Pane :=
  match x with
  | Submit r text => submit (Modes.mode_model r Modes.web) text p
  | Settle reply => settle reply p
  | ResetCall r => reset_call (Modes.mode_model r Modes.web) p
  | ResetDone => reset_done p
  end.

Definition steps (xs : list Step) (p : Pane) : Pane :=
  fold_left (fun acc x => step x acc) xs p.

(** Handlers that run one after the other: a submission with what the
    backend answers, or a click on the reset button. *)
Inductive Action :=
| Send (r : Modes.Registry) (reply : Reply) (text : string)
| ResetContext (r : Modes.Registry).

Definition act (x : Action) (p : Pane) : Pane :=
  match x with
  | Send r reply text => handleSend (Modes.mode_model r Modes.web) reply text p
  | ResetContext r => handleReset (Modes.mode_model r Modes.web) p
  end.

Definition acts (xs : list Action) (p : Pane) : Pane :=
  fold_left (fun acc x => act x acc) xs p.

(** A transcript of exchanges: a user message that is not empty, then a bot
    message that is not empty, and so on. *)
Fixpoint exchanges (l : list Msg) : Prop :=
  match l with
  | [] => True
  | u :: r =>
      match r with
      | [] => False
      | b :: r' =>
          role u = user /\ text u <> "" /\ role b = bot /\ text b <> ""
          /\ exchanges r'
      end
  end.

(** What holds of the pane after any steps: the transcript starts with a
    bot message and holds no empty message; every request carried a trimmed
    prompt and a model, neither empty; every user message shown is the
    prompt of a request that was made; every reset named a model; and
    nothing is loading unless a request is waiting. *)
Definition shaped (p : Pane) : Prop :=
  (exists g rest, messages p = g :: rest /\ role g = bot)
  /\ Forall (fun m => text m <> "") (messages p)
  /\ Forall (fun rq => fst rq <> "" /\ snd rq <> "" /\ JS.trim (fst rq) = fst rq)
            (requests p)
  /\ Forall (fun m => role m = user -> In (text m) (map fst (requests p)))
            (messages p)
  /\ Forall (fun m => m <> "") (resets p)
  /\ (waiting p = 0 -> isLoading p = false).

(** What holds of the pane between handlers that run one after the other:
    nothing is waiting or loading, and the transcript is a bot message
    followed by exchanges. *)
Definition settled (p : Pane) : Prop :=
  waiting p = 0 /\ resetting p = 0 /\ isLoading p = false
  /\ exists g rest, messages p = g :: rest /\ role g = bot /\ exchanges rest.

End WebChat.

(** * Properties *)

(** ** Facts about JavaScript numbers *)

Module NumberFacts.

Lemma SFcompare_refl (s : spec_float) :
  s <> S754_nan -> SFcompare s s = Some Eq.
Proof.
  destruct s as [b|b| |b m e]; simpl; intros Hn; try congruence.
  - destruct b; reflexivity.
  - rewrite Z.compare_refl, Pcompare_refl. destruct b; reflexivity.
Qed.

Lemma SFcompare_antisym (x y : spec_float) :
  SFcompare y x = option_map CompOpp (SFcompare x y).
Proof.
  destruct x as [a|a| |a m e], y as [b|b| |b n f]; simpl; try reflexivity;
    try (destruct a; reflexivity); try (destruct b; reflexivity);
    try (destruct a, b; reflexivity).
  assert (Hp : Pos.compare_cont Eq n m = CompOpp (Pos.compare_cont Eq m n))
    by (rewrite Pos.compare_cont_antisym; reflexivity).
  rewrite (Z.compare_antisym e f), Hp.
  destruct a, b; simpl; try reflexivity;
    destruct (e ?= f)%Z; simpl; try reflexivity;
    destruct (Pos.compare_cont Eq m n); reflexivity.
Qed.

Lemma SFcompare_None (x y : spec_float) :
  SFcompare x y = None -> x = S754_nan \/ y = S754_nan.
Proof.
  destruct x as [a|a| |a m e], y as [b|b| |b n f]; simpl; intros H;
    try discriminate; auto.
Qed.

Lemma is_nan_spec (x : float) :
  PrimFloat.is_nan x = false <-> Prim2SF x <> S754_nan.
Proof.
  unfold PrimFloat.is_nan. rewrite FloatAxioms.eqb_spec. unfold SFeqb. split.
  - intros H Hn. rewrite Hn in H. discriminate.
  - intros H. rewrite (SFcompare_refl _ H). reflexivity.
Qed.

Lemma ltb_not_nan (x y : float) :
  PrimFloat.ltb x y = true ->
  PrimFloat.is_nan x = false /\ PrimFloat.is_nan y = false.
Proof.
  rewrite FloatAxioms.ltb_spec, !is_nan_spec. unfold SFltb. intros H.
  split; intros Hn; rewrite Hn in H; [|destruct (Prim2SF x)]; discriminate.
Qed.

Lemma leb_not_nan (x y : float) :
  PrimFloat.leb x y = true ->
  PrimFloat.is_nan x = false /\ PrimFloat.is_nan y = false.
Proof.
  rewrite FloatAxioms.leb_spec, !is_nan_spec. unfold SFleb. intros H.
  split; intros Hn; rewrite Hn in H; [|destruct (Prim2SF x)]; discriminate.
Qed.

Lemma leb_refl (x : float) :
  PrimFloat.is_nan x = false -> PrimFloat.leb x x = true.
Proof.
  rewrite FloatAxioms.leb_spec, is_nan_spec. unfold SFleb. intros H.
  rewrite (SFcompare_refl _ H). reflexivity.
Qed.

(** Turn the comparisons of the goal into [SFcompare] on the
    specifications of [x] and [y], oriented as [SFcompare x y], and try its
    four results. *)
Ltac by_SFcompare x y :=
  rewrite ?FloatAxioms.ltb_spec, ?FloatAxioms.leb_spec, ?FloatAxioms.eqb_spec;
  unfold SFltb, SFleb, SFeqb;
  rewrite ?(SFcompare_antisym (Prim2SF x) (Prim2SF y));
  destruct (SFcompare (Prim2SF x) (Prim2SF y)) as [[]|] eqn:?; simpl;
  try congruence.

Lemma ltb_leb (x y : float) :
  PrimFloat.ltb x y = true -> PrimFloat.leb x y = true.
Proof. by_SFcompare x y. Qed.

Lemma ltb_asym (x y : float) :
  PrimFloat.ltb x y = true -> PrimFloat.ltb y x = false.
Proof. by_SFcompare x y. Qed.

(** Without [NaN], what is not below is at least. *)
Lemma not_ltb_leb (x y : float) :
  PrimFloat.is_nan x = false -> PrimFloat.is_nan y = false ->
  PrimFloat.ltb x y = false -> PrimFloat.leb y x = true.
Proof.
  rewrite !is_nan_spec. intros Hx Hy. by_SFcompare x y.
  match goal with E : SFcompare _ _ = None |- _ =>
    destruct (SFcompare_None _ _ E); contradiction
  end.
Qed.

Lemma leb_not_ltb (x y : float) :
  PrimFloat.leb x y = true -> PrimFloat.ltb y x = false.
Proof. by_SFcompare x y. Qed.

Lemma eqb_not_ltb (x y : float) :
  PrimFloat.eqb x y = true -> PrimFloat.ltb y x = false.
Proof. by_SFcompare x y. Qed.

(** A positive number is strictly equal to itself. *)
Lemma gt_strict_eq_refl (x z : JS.number) :
  JS.gt x z = true -> JS.strict_eq x x = true.
Proof.
  unfold JS.gt, JS.strict_eq. intros H. apply ltb_not_nan in H as [_ H].
  unfold PrimFloat.is_nan in H.
  destruct (PrimFloat.eqb x x); [reflexivity|discriminate].
Qed.

(** A number strictly equal to [z] is not above [z]. *)
Lemma strict_eq_not_gt (x z : JS.number) :
  JS.strict_eq x z = true -> JS.gt x z = false.
Proof. apply eqb_not_ltb. Qed.

(** [Math.min] is one of its arguments unless one of them is [NaN]. *)
Lemma Math_min_cases (a b : JS.number) :
  PrimFloat.is_nan a = false -> PrimFloat.is_nan b = false ->
  JS.Math_min a b = a \/ JS.Math_min a b = b.
Proof.
  intros Ha Hb. unfold JS.Math_min. rewrite Ha, Hb. simpl.
  destruct (PrimFloat.ltb a b); [auto|].
  destruct (PrimFloat.ltb b a); [auto|].
  destruct (PrimFloat.classify a); auto.
Qed.

Lemma Math_min_le_l (a b : JS.number) :
  PrimFloat.is_nan a = false -> PrimFloat.is_nan b = false ->
  JS.le (JS.Math_min a b) a = true.
Proof.
  intros Ha Hb. unfold JS.Math_min, JS.le. rewrite Ha, Hb. simpl.
  destruct (PrimFloat.ltb a b) eqn:H1; [now apply leb_refl|].
  destruct (PrimFloat.ltb b a) eqn:H2; [now apply ltb_leb|].
  destruct (PrimFloat.classify a);
    solve [now apply leb_refl | now apply not_ltb_leb].
Qed.

Lemma Math_min_ge (c a b : JS.number) :
  JS.le c a = true -> JS.le c b = true -> JS.le c (JS.Math_min a b) = true.
Proof.
  unfold JS.le. intros Ha Hb.
  destruct (Math_min_cases a b) as [E|E]; try rewrite E; auto.
  - now apply leb_not_nan in Ha.
  - now apply leb_not_nan in Hb.
Qed.

(** Below its first argument, [Math.min] is its second argument. *)
Lemma Math_min_r (a b : JS.number) :
  PrimFloat.ltb b a = true -> JS.Math_min a b = b.
Proof.
  intros H. unfold JS.Math_min.
  destruct (ltb_not_nan _ _ H) as [Hb Ha]. rewrite Ha, Hb. simpl.
  rewrite (ltb_asym _ _ H), H. reflexivity.
Qed.

(** *** Signs of rounded products and quotients *)

Lemma shr_1_nonneg (mrs : shr_record) :
  (0 <= shr_m mrs)%Z -> (0 <= shr_m (shr_1 mrs))%Z.
Proof.
  destruct mrs as [m r s]. simpl.
  destruct m as [|[p|p|]|[p|p|]]; simpl; intros H; try lia.
Qed.

Lemma iter_pos_invariant {A : Type} (P : A -> Prop) (f : A -> A) :
  (forall a, P a -> P (f a)) ->
  forall (n : positive) (a : A), P a -> P (SpecFloat.iter_pos f n a).
Proof.
  intros Hf. induction n as [n IH|n IH|]; intros a Ha; simpl; auto.
Qed.

Lemma shr_nonneg (mrs : shr_record) (e n : Z) :
  (0 <= shr_m mrs)%Z -> (0 <= shr_m (fst (shr mrs e n)))%Z.
Proof.
  intros H. unfold shr. destruct n as [|p|p]; simpl; try assumption.
  apply (iter_pos_invariant (fun r => (0 <= shr_m r)%Z)); auto using shr_1_nonneg.
Qed.

Lemma shr_fexp_nonneg (prec emax m e : Z) (l : location) :
  (0 <= m)%Z -> (0 <= shr_m (fst (shr_fexp prec emax m e l)))%Z.
Proof.
  intros H. unfold shr_fexp. apply shr_nonneg.
  destruct l as [|[]]; simpl; assumption.
Qed.

Lemma round_nearest_even_nonneg (m : Z) (l : location) :
  (0 <= m)%Z -> (0 <= round_nearest_even m l)%Z.
Proof.
  intros H. unfold round_nearest_even.
  destruct l as [|[]]; try destruct (Z.even m); lia.
Qed.

(** Rounding a non-negative mantissa gives a zero, a finite number or an
    infinity, with the sign it was given. *)
Lemma binary_round_aux_sign (prec emax : Z) (sx : bool) (mx ex : Z) (lx : location) :
  (0 <= mx)%Z -> JS.sign_bit sx (binary_round_aux prec emax sx mx ex lx).
Proof.
  intros H. unfold binary_round_aux.
  pose proof (shr_fexp_nonneg prec emax mx ex lx H) as H1.
  destruct (shr_fexp prec emax mx ex lx) as [mrs' e']. simpl in H1.
  pose proof (shr_fexp_nonneg prec emax _ e' loc_Exact
                (round_nearest_even_nonneg _ (loc_of_shr_record mrs') H1)) as H2.
  destruct (shr_fexp prec emax _ e' loc_Exact) as [mrs'' e'']. simpl in H2.
  destruct (shr_m mrs'') as [|m|m]; simpl; try reflexivity.
  - destruct (Z.leb e'' (emax - prec)); reflexivity.
  - lia.
Qed.

Lemma sign_bit_signed (s : bool) (x : spec_float) : JS.sign_bit s x -> JS.signed s x.
Proof. destruct x; simpl; auto. Qed.

(** Multiplying by a positive finite number keeps sign and non-[NaN]-ness. *)
Lemma SFmul_pos_finite_signed (prec emax : Z) (s : bool) (x : spec_float)
    (m : positive) (e : Z) :
  JS.signed s x -> JS.signed s (SFmul prec emax x (S754_finite false m e)).
Proof.
  destruct x as [b|b| |b n f]; simpl; intros H; try contradiction; auto.
  - subst. destruct s; reflexivity.
  - subst. apply sign_bit_signed.
    replace s with (xorb s false) at 1 by (destruct s; reflexivity).
    apply binary_round_aux_sign. lia.
Qed.

Lemma SFdiv_core_binary_nonneg (prec emax : Z) (m1 m2 : positive) (e1 e2 : Z) :
  (0 <= fst (fst (SFdiv_core_binary prec emax (Zpos m1) e1 (Zpos m2) e2)))%Z.
Proof.
  unfold SFdiv_core_binary.
  set (s := (e1 - e2 - _)%Z).
  set (m' := match s with Zpos _ => _ | Z0 => _ | Zneg _ => _ end).
  assert (Hm : (0 <= m')%Z).
  { subst m'. destruct s; try lia. apply Z.shiftl_nonneg. lia. }
  pose proof (Z.div_pos m' (Zpos m2) Hm ltac:(lia)) as Hq.
  unfold Z.div in Hq.
  destruct (Z.div_eucl m' (Zpos m2)) as [q r]. simpl in *. exact Hq.
Qed.

(** Dividing by a positive finite number keeps sign and non-[NaN]-ness. *)
Lemma SFdiv_pos_finite_signed (prec emax : Z) (s : bool) (x : spec_float)
    (m : positive) (e : Z) :
  JS.signed s x -> JS.signed s (SFdiv prec emax x (S754_finite false m e)).
Proof.
  destruct x as [b|b| |b n f]; simpl; intros H; try contradiction; auto.
  - subst. destruct s; reflexivity.
  - subst. apply sign_bit_signed.
    pose proof (SFdiv_core_binary_nonneg prec emax n m f e) as Hq.
    destruct (SFdiv_core_binary prec emax (Zpos n) f (Zpos m) e) as [[mz ez] lz].
    simpl in Hq.
    replace s with (xorb s false) at 1 by (destruct s; reflexivity).
    now apply binary_round_aux_sign.
Qed.

Lemma not_nan_signed (x : spec_float) :
  x <> S754_nan -> exists s, JS.signed s x.
Proof.
  destruct x as [b|b| |b n f]; intros H; try congruence.
  - exists false. exact I.
  - exists b. reflexivity.
  - exists b. reflexivity.
Qed.

Lemma signed_not_nan (s : bool) (x : spec_float) : JS.signed s x -> x <> S754_nan.
Proof. destruct x; simpl; intros H; congruence. Qed.

Lemma leb_zero_signed (x : float) :
  PrimFloat.leb 0%float x = true <-> JS.signed false (Prim2SF x).
Proof.
  rewrite FloatAxioms.leb_spec. change (Prim2SF 0%float) with (S754_zero false).
  unfold SFleb. destruct (Prim2SF x) as [b|b| |b n f]; simpl;
    try destruct b; intuition congruence.
Qed.

Lemma scaled_signed (s : bool) (x c : float) :
  JS.finite_positive c -> JS.signed s (Prim2SF x) ->
  JS.signed s (Prim2SF (PrimFloat.mul (PrimFloat.div x c) 100%float)).
Proof.
  intros (m & e & Hc) Hx.
  rewrite FloatAxioms.mul_spec, FloatAxioms.div_spec, Hc.
  change (Prim2SF 100%float) with (S754_finite false 7036874417766400 (-46)).
  apply SFmul_pos_finite_signed, SFdiv_pos_finite_signed, Hx.
Qed.

(** A non-negative reading scales to a non-negative number. *)
Lemma scaled_nonneg (x c : float) :
  JS.finite_positive c -> PrimFloat.leb 0%float x = true ->
  PrimFloat.leb 0%float (PrimFloat.mul (PrimFloat.div x c) 100%float) = true.
Proof.
  intros Hc Hx. apply leb_zero_signed, scaled_signed; [assumption|].
  now apply leb_zero_signed.
Qed.

(** A reading that is a number scales to a number. *)
Lemma scaled_not_nan (x c : float) :
  JS.finite_positive c -> PrimFloat.is_nan x = false ->
  PrimFloat.is_nan (PrimFloat.mul (PrimFloat.div x c) 100%float) = false.
Proof.
  intros Hc Hx. apply is_nan_spec in Hx. apply not_nan_signed in Hx as [s Hs].
  apply is_nan_spec. apply (signed_not_nan s). now apply scaled_signed.
Qed.

End NumberFacts.

(** ** Energy telemetry monitor *)

Module TelemetryFacts.

Import Telemetry.

#[local] Open Scope float_scope.

(** One more than two entries is cut back to two. *)
Lemma keep_last2_length (l : list JS.number) :
  length l <= 3 -> length (keep_last2 l) <= 2.
Proof.
  unfold keep_last2. intros H.
  destruct (Nat.ltb_spec 2 (length l)) as [Hlt|Hge]; [|lia].
  destruct l as [|x l]; simpl in *; lia.
Qed.

Lemma keep_last2_Forall (P : JS.number -> Prop) (l : list JS.number) :
  Forall P l -> Forall P (keep_last2 l).
Proof.
  unfold keep_last2. intros H. destruct (Nat.ltb 2 (length l)); [|assumption].
  destruct l as [|x l]; simpl; [constructor|]. now inversion H.
Qed.

(** The window after one push: unchanged, or the admitted reading appended
    and the oldest entry dropped beyond two. *)
Lemma onPowerUpdate_window (s : Summary) (e : Energy) :
  promptWhHistory (onPowerUpdate s e) =
    if accepts (lastPromptWhRef e) (JS.nullish_zero (latest_prompt_Wh s))
    then keep_last2 (promptWhHistory e ++ [JS.nullish_zero (latest_prompt_Wh s)])
    else promptWhHistory e.
Proof.
  unfold onPowerUpdate, promptWhHistory_updater. simpl.
  destruct (accepts _ _); reflexivity.
Qed.

(** The last-seen ref after one push is the pushed reading. *)
Lemma onPowerUpdate_ref (s : Summary) (e : Energy) :
  lastPromptWhRef (onPowerUpdate s e) = Some (JS.nullish_zero (latest_prompt_Wh s)).
Proof.
  unfold onPowerUpdate, promptWhHistory_updater. simpl.
  destruct (accepts _ _); reflexivity.
Qed.

Lemma initial_window_ok : window_ok initial.
Proof. split; simpl; [lia|constructor]. Qed.

Lemma onPowerUpdate_window_ok (s : Summary) (e : Energy) :
  window_ok e -> window_ok (onPowerUpdate s e).
Proof.
  intros [Hlen Hpos]. unfold window_ok. rewrite onPowerUpdate_window.
  destruct (accepts _ _) eqn:Ha; [|split; assumption].
  apply andb_prop in Ha as [Hgt _]. split.
  - apply keep_last2_length. rewrite length_app. simpl. lia.
  - apply keep_last2_Forall, Forall_app. split; [assumption|].
    constructor; [assumption|constructor].
Qed.

Lemma pushes_window_ok (ss : list Summary) (e : Energy) :
  window_ok e -> window_ok (pushes ss e).
Proof.
  revert e. induction ss as [|s ss IH]; intros e He; simpl; [assumption|].
  apply IH, onPowerUpdate_window_ok, He.
Qed.

Lemma last2_short (l : list JS.number) : length l <= 2 -> last2 l = l.
Proof.
  intros H. unfold last2. replace (length l - 2)%nat with 0%nat by lia. reflexivity.
Qed.

(** Dropping the oldest entry beyond two does not change the last two of
    what follows. *)
Lemma last2_keep_last2_app (l r : list JS.number) :
  last2 (keep_last2 l ++ r) = last2 (l ++ r).
Proof.
  unfold keep_last2. destruct (Nat.ltb_spec 2 (length l)) as [Hlt|_]; [|reflexivity].
  destruct l as [|a l]; simpl in Hlt; [lia|]. simpl. unfold last2.
  change (length (a :: l ++ r)) with (S (length (l ++ r))).
  assert (Hlen : 2 <= length (l ++ r)) by (rewrite length_app; lia).
  replace (S (length (l ++ r)) - 2)%nat with (S (length (l ++ r) - 2))%nat by lia.
  reflexivity.
Qed.

(** The window after a sequence of pushes is the last two of: the window
    before, followed by the readings that passed the admission test. *)
Lemma pushes_window_accepted (ss : list Summary) (e : Energy) :
  window_ok e ->
  promptWhHistory (pushes ss e)
  = last2 (promptWhHistory e ++ accepted (lastPromptWhRef e) (map latest_of ss)).
Proof.
  revert e. induction ss as [|s ss IH]; intros e He.
  - simpl. rewrite app_nil_r. symmetry. apply last2_short, He.
  - cbn [pushes fold_left map accepted]. fold (pushes ss (onPowerUpdate s e)).
    rewrite (IH _ (onPowerUpdate_window_ok s e He)).
    rewrite onPowerUpdate_window, onPowerUpdate_ref. fold (latest_of s).
    destruct (accepts (lastPromptWhRef e) (latest_of s)).
    + rewrite last2_keep_last2_app, <- app_assoc. reflexivity.
    + reflexivity.
Qed.

(** A reading that was just pushed is not admitted when pushed again. *)
Lemma accepts_last_seen (x : JS.number) : accepts (Some x) x = false.
Proof.
  unfold accepts. destruct (JS.gt x 0) eqn:Hgt; [|reflexivity]. simpl.
  now rewrite (NumberFacts.gt_strict_eq_refl _ _ Hgt).
Qed.

(** A reading that is not admitted leaves the window as it is. *)
Lemma not_accepted_frame (s : Summary) (e : Energy) :
  accepts (lastPromptWhRef e) (JS.nullish_zero (latest_prompt_Wh s)) = false ->
  promptWhHistory (onPowerUpdate s e) = promptWhHistory e.
Proof. intros H. now rewrite onPowerUpdate_window, H. Qed.

(** C1, as the code has it: after every sequence of pushes from the
    initial state the rolling window holds at most two entries, each of
    them a positive reading; it is the last two of the readings that passed
    the admission test, positive and different from the last-seen reading,
    which is the reading of the push just before, zero or not.  One more
    push either leaves the window as it is or appends its reading, which
    then passed that test, dropping the oldest entry beyond two; and pushing
    the same summary twice in a row changes nothing the second time.  Equal
    neighbours are not excluded: they arise when another reading was seen in
    between. *)
Theorem rolling_window_invariant (ss : list Summary) (s : Summary) :
  length (promptWhHistory (pushes ss initial)) <= 2
  /\ Forall (fun v => JS.gt v 0 = true) (promptWhHistory (pushes ss initial))
  /\ promptWhHistory (pushes ss initial) = last2 (accepted None (map latest_of ss))
  /\ (promptWhHistory (onPowerUpdate s (pushes ss initial))
      = promptWhHistory (pushes ss initial)
      \/ (JS.gt (latest_of s) 0 = true
          /\ JS.strict_ne_nullable (latest_of s) (lastPromptWhRef (pushes ss initial)) = true
          /\ promptWhHistory (onPowerUpdate s (pushes ss initial))
             = keep_last2 (promptWhHistory (pushes ss initial) ++ [latest_of s])))
  /\ promptWhHistory (onPowerUpdate s (onPowerUpdate s (pushes ss initial)))
     = promptWhHistory (onPowerUpdate s (pushes ss initial)).
Proof.
  destruct (pushes_window_ok ss initial initial_window_ok) as [Hlen Hpos].
  split; [exact Hlen|]. split; [exact Hpos|].
  split; [exact (pushes_window_accepted ss initial initial_window_ok)|]. split.
  - rewrite onPowerUpdate_window. fold (latest_of s).
    destruct (accepts _ _) eqn:Ha; [right|left; reflexivity].
    apply andb_prop in Ha as [Hgt Hne]. auto.
  - apply not_accepted_frame. rewrite onPowerUpdate_ref. apply accepts_last_seen.
Qed.

(** C1, the claim as written fails: the pushes 0.3, 0, 0.3 leave the
    window [0.3, 0.3], two equal non-zero neighbours.  The zero in between
    resets the last-seen ref, so the third push is admitted. *)
Lemma rolling_window_repeat_counterexample :
  promptWhHistory (pushes [reading 0.3] initial) = [0.3]
  /\ promptWhHistory (pushes [reading 0.3; reading 0] initial) = [0.3]
  /\ lastPromptWhRef (pushes [reading 0.3; reading 0] initial) = Some 0
  /\ promptWhHistory (pushes [reading 0.3; reading 0; reading 0.3] initial) = [0.3; 0.3]
  /\ no_repeat (promptWhHistory (pushes [reading 0.3; reading 0; reading 0.3] initial))
     = false.
Proof. vm_compute. repeat split; reflexivity. Qed.

(** C8: a push whose latest-prompt reading is zero, or equal to the
    last-seen reading, leaves the rolling window exactly as it was and sets
    the last-seen ref to the pushed reading. *)
Theorem zero_or_repeated_reading_frame (s : Summary) (e : Energy) :
  JS.strict_eq (JS.nullish_zero (latest_prompt_Wh s)) 0 = true
  \/ (exists p, lastPromptWhRef e = Some p
                /\ JS.strict_eq (JS.nullish_zero (latest_prompt_Wh s)) p = true) ->
  promptWhHistory (onPowerUpdate s e) = promptWhHistory e
  /\ lastPromptWhRef (onPowerUpdate s e) = Some (JS.nullish_zero (latest_prompt_Wh s)).
Proof.
  intros H. split; [|apply onPowerUpdate_ref].
  apply not_accepted_frame. unfold accepts.
  destruct H as [Hz|(p & Hp & Heq)].
  - now rewrite (NumberFacts.strict_eq_not_gt _ _ Hz).
  - rewrite Hp. simpl. rewrite Heq. apply andb_false_r.
Qed.

(** C8 at the pushes 0.3, 0.3 and 0.3, 0: the window stays [0.3]. *)
Lemma zero_or_repeated_reading_frame_witness :
  (promptWhHistory (onPowerUpdate (reading 0.3) (pushes [reading 0.3] initial)) = [0.3]
   /\ lastPromptWhRef (onPowerUpdate (reading 0.3) (pushes [reading 0.3] initial))
      = Some 0.3)
  /\ (promptWhHistory (onPowerUpdate (reading 0) (pushes [reading 0.3] initial)) = [0.3]
      /\ lastPromptWhRef (onPowerUpdate (reading 0) (pushes [reading 0.3] initial))
         = Some 0).
Proof.
  split.
  - apply (zero_or_repeated_reading_frame (reading 0.3) (pushes [reading 0.3] initial)).
    right. exists 0.3. split; reflexivity.
  - apply (zero_or_repeated_reading_frame (reading 0) (pushes [reading 0.3] initial)).
    left. reflexivity.
Defined.

(** C9: from the empty window and ref, the pushes 0.3, 0.3, 0.5 leave the
    window [0.3, 0.5], and its mean [last2AvgWh] is 0.4. *)
Theorem pushes_03_03_05 :
  promptWhHistory (pushes [reading 0.3; reading 0.3; reading 0.5] initial) = [0.3; 0.5]
  /\ last2AvgWh (pushes [reading 0.3; reading 0.3; reading 0.5] initial) = Some 0.4.
Proof. vm_compute. split; reflexivity. Qed.

Lemma finite_positive_1 : JS.finite_positive 1.0.
Proof. do 2 eexists. reflexivity. Qed.

Lemma finite_positive_10 : JS.finite_positive 10.0.
Proof. do 2 eexists. reflexivity. Qed.

Lemma pct_vs_baseline_le_100 (wh c : JS.number) :
  JS.finite_positive c -> PrimFloat.is_nan wh = false ->
  JS.le (pct_vs_baseline wh c) 100 = true.
Proof.
  intros Hc Hwh. unfold pct_vs_baseline.
  apply NumberFacts.Math_min_le_l; [reflexivity|].
  now apply NumberFacts.scaled_not_nan.
Qed.

Lemma pct_vs_baseline_ge_0 (wh c : JS.number) :
  JS.finite_positive c -> JS.le 0 wh = true ->
  JS.le 0 (pct_vs_baseline wh c) = true.
Proof.
  intros Hc Hwh. unfold pct_vs_baseline.
  apply NumberFacts.Math_min_ge; [reflexivity|].
  now apply NumberFacts.scaled_nonneg.
Qed.

(** C4, as the code has it: on every push the two legacy percentages are
    [Math.min(100, latestWh / 1.0 * 100)] and
    [Math.min(100, sessionWh / 10.0 * 100)].  They are capped at 100 from
    above for every reading that is a number, and they are at least 0 for
    every reading that is at least 0; nothing clamps them from below. *)
Theorem legacy_pct_capped_above (s : Summary) (e : Energy) :
  let latestWh := JS.nullish_zero (latest_prompt_Wh s) in
  let sessionWh := JS.nullish_zero (session_total_Wh s) in
  lastPromptEnergyPct (onPowerUpdate s e) = JS.Math_min 100 (latestWh / 1.0 * 100)
  /\ totalEnergyPct (onPowerUpdate s e) = JS.Math_min 100 (sessionWh / 10.0 * 100)
  /\ (PrimFloat.is_nan latestWh = false ->
      JS.le (lastPromptEnergyPct (onPowerUpdate s e)) 100 = true)
  /\ (PrimFloat.is_nan sessionWh = false ->
      JS.le (totalEnergyPct (onPowerUpdate s e)) 100 = true)
  /\ (JS.le 0 latestWh = true ->
      JS.le 0 (lastPromptEnergyPct (onPowerUpdate s e)) = true)
  /\ (JS.le 0 sessionWh = true ->
      JS.le 0 (totalEnergyPct (onPowerUpdate s e)) = true).
Proof.
  intros latestWh sessionWh. simpl. fold latestWh sessionWh.
  repeat split; try reflexivity; intros H.
  - now apply pct_vs_baseline_le_100; [apply finite_positive_1|].
  - now apply pct_vs_baseline_le_100; [apply finite_positive_10|].
  - now apply pct_vs_baseline_ge_0; [apply finite_positive_1|].
  - now apply pct_vs_baseline_ge_0; [apply finite_positive_10|].
Qed.

(** C4 at a push of 0.3 Wh and 2.4 Wh: both percentages are between 0
    and 100. *)
Lemma legacy_pct_capped_above_witness :
  JS.le (lastPromptEnergyPct (onPowerUpdate sample_push initial)) 100 = true
  /\ JS.le (totalEnergyPct (onPowerUpdate sample_push initial)) 100 = true
  /\ JS.le 0 (lastPromptEnergyPct (onPowerUpdate sample_push initial)) = true
  /\ JS.le 0 (totalEnergyPct (onPowerUpdate sample_push initial)) = true.
Proof.
  destruct (legacy_pct_capped_above sample_push initial)
    as (_ & _ & H1 & H2 & H3 & H4).
  split; [apply H1; reflexivity|].
  split; [apply H2; reflexivity|].
  split; [apply H3; reflexivity|apply H4; reflexivity].
Defined.

(** C4, the claim as written fails: a push of -1 Wh for the prompt and
    -5 Wh for the session gives the percentages -100 and -50, both below
    0. *)
Lemma legacy_pct_negative_counterexample :
  lastPromptEnergyPct
    (onPowerUpdate {| latest_prompt_Wh := Some (-1); session_total_Wh := Some (-5);
                      today_total_Wh := None |} initial) = -100
  /\ totalEnergyPct
       (onPowerUpdate {| latest_prompt_Wh := Some (-1); session_total_Wh := Some (-5);
                         today_total_Wh := None |} initial) = -50
  /\ JS.le 0 (-100) = false
  /\ JS.le 0 (-50) = false.
Proof. vm_compute. repeat split; reflexivity. Qed.

End TelemetryFacts.

(** ** Study session state machine *)

Module StudyFacts.

Import Study.

(** After Start is clicked at a time other than 0 the task is running,
    whatever the state before. *)
Lemma click_Start_running (t : Z) (a : App) :
  t <> 0%Z -> running (study (click_Start t a)) = true.
Proof.
  intros Ht. unfold click_Start.
  destruct (running (study a)) eqn:Hr; [assumption|].
  unfold running. simpl. apply Z.eqb_neq in Ht. now rewrite Ht.
Qed.

(** After End runs at a time other than 0 the task is no longer running. *)
Lemma handleEndTask_not_running `{NumberText} (t : Z) (a : App) :
  t <> 0%Z -> running (study (handleEndTask t a)) = false.
Proof.
  intros Ht. unfold running. simpl. apply Z.eqb_neq in Ht. rewrite Ht.
  apply andb_false_r.
Qed.

(** Prompts, telemetry pushes, transcript changes and model reports leave
    the study settings as they are. *)
Lemma on_events_study (es : list Event) (a : App) :
  study (on_events es a) = study a.
Proof.
  revert a. induction es as [|ev es IH]; intros a; simpl; [reflexivity|].
  fold (on_events es (on_event ev a)). rewrite IH. destruct ev; reflexivity.
Qed.

(** C2: Start, then End, then Reset (the three buttons of [StudyControls],
    clicked at times other than 0, as [Date.now()] is) leave the study
    settings idle, with both task timestamps [null] and no prompt metrics,
    from any state and whatever prompts, telemetry pushes and transcript
    changes arrive in between; the task is running after Start and End
    records its time.  And End is a no-op unless the task is running: the
    timestamps, the stored snapshots and the saved sessions stay as they
    are, with the rest of the state. *)
Theorem start_end_reset_idle `{NumberText} (a : App) (t1 t2 : Z) (es1 es2 : list Event) :
  t1 <> 0%Z -> t2 <> 0%Z ->
  running (study (on_events es1 (click_Start t1 a))) = true
  /\ taskEndedAt (study (click_End t2 (on_events es1 (click_Start t1 a)))) = Some t2
  /\ idle (study (click_Reset
                    (on_events es2 (click_End t2 (on_events es1 (click_Start t1 a))))))
  /\ promptMetrics (click_Reset
                      (on_events es2 (click_End t2 (on_events es1 (click_Start t1 a)))))
     = []
  /\ (forall (b : App) (t : Z), running (study b) = false -> click_End t b = b).
Proof.
  intros Ht1 Ht2.
  assert (Hrun : running (study (on_events es1 (click_Start t1 a))) = true)
    by (rewrite on_events_study; now apply click_Start_running).
  assert (Hend : click_End t2 (on_events es1 (click_Start t1 a))
                 = handleEndTask t2 (on_events es1 (click_Start t1 a)))
    by (unfold click_End; now rewrite Hrun).
  assert (Hreset : forall b, running (study b) = false -> click_Reset b = handleResetAll b)
    by (intros b Hb; unfold click_Reset; now rewrite Hb).
  rewrite Hend, Hreset
    by (rewrite on_events_study; now apply handleEndTask_not_running).
  split; [exact Hrun|]. split; [reflexivity|]. split; [split; reflexivity|].
  split; [reflexivity|].
  intros b t Hb. unfold click_End. now rewrite Hb.
Qed.

(** C2 for participant "P1" on a freshly mounted [App]: Start at 1000, a
    telemetry push, End at 2000, Reset. *)
Lemma start_end_reset_idle_witness :
  running (study sample_session1) = true
  /\ taskEndedAt (study (@click_End sample_text 2000 sample_session1)) = Some 2000%Z
  /\ idle (study (click_Reset (@click_End sample_text 2000 sample_session1)))
  /\ promptMetrics (click_Reset (@click_End sample_text 2000 sample_session1)) = []
  /\ (forall (b : App) (t : Z),
        running (study b) = false -> @click_End sample_text t b = b).
Proof.
  apply (@start_end_reset_idle sample_text
           (@mount sample_text ∅
              {| persisted_participantId := Some "P1"; persisted_group := None;
                 persisted_session := None |})
           1000 2000 [PowerUpdate Telemetry.sample_push] []); lia.
Defined.

(** C10: [handleResetAll] changes, of the study settings, only the two task
    timestamps, which it sets to [null]; participant id, group and session
    stay.  It empties the prompt metrics and the rolling window with its
    last-seen ref, sets the energy readings to [null] and the legacy metrics
    to 0, and puts the transcript back to the greeting it starts from. *)
Theorem handleResetAll_frame (a : App) :
  participantId (study (handleResetAll a)) = participantId (study a)
  /\ group (study (handleResetAll a)) = group (study a)
  /\ session (study (handleResetAll a)) = session (study a)
  /\ taskStartedAt (study (handleResetAll a)) = None
  /\ taskEndedAt (study (handleResetAll a)) = None
  /\ promptMetrics (handleResetAll a) = []
  /\ messages (handleResetAll a) = [Transcript.greeting]
  /\ Telemetry.promptWhHistory (energy (handleResetAll a)) = []
  /\ Telemetry.lastPromptWhRef (energy (handleResetAll a)) = None
  /\ Telemetry.latestPromptWh (energy (handleResetAll a)) = None
  /\ Telemetry.sessionTotalWh (energy (handleResetAll a)) = None
  /\ Telemetry.todayTotalWh (energy (handleResetAll a)) = None
  /\ Telemetry.lastPromptEnergyPct (energy (handleResetAll a)) = 0%float
  /\ Telemetry.totalEnergyPct (energy (handleResetAll a)) = 0%float
  /\ Telemetry.kwhUsed (energy (handleResetAll a)) = 0%float.
Proof. unfold handleResetAll. simpl. repeat split. Qed.

Lemma or_anon_nonempty (id : string) : id <> "" -> or_anon id = id.
Proof.
  intros H. unfold or_anon. destruct (String.eqb_spec id ""); [contradiction|reflexivity].
Qed.

(** Reading back a stored [String(wh)]. *)
Lemma read_number_stored `{NumberText} (ls : gmap string string) (key : string)
    (wh : JS.number) :
  String_of wh <> "" -> Number_of (String_of wh) = wh ->
  ls !! key = Some (String_of wh) -> read_number ls key = Some wh.
Proof.
  intros Hne Hrt Hls. unfold read_number. rewrite Hls.
  destruct (String.eqb_spec (String_of wh) ""); [contradiction|now rewrite Hrt].
Qed.

Lemma read_number_absent `{NumberText} (ls : gmap string string) (key : string) :
  ls !! key = None -> read_number ls key = None.
Proof. intros Hls. unfold read_number. now rewrite Hls. Qed.

(** The session-1 reference of a participant whose id is not empty.  When
    session 1 of participant [id] ends while the session total is
    a number [wh], [String(wh)] is stored under the participant's key and
    [s1TotalWh] becomes [wh].  From then on a session 2 of the same
    participant shows [wh] as the session-1 total, read from the state or
    from storage and not measured again: when the session is switched to 2
    in the same state, when the participant id is entered in any state whose
    storage still has the entry, and when [App] mounts with that id
    persisted.  A key that is not stored gives [null].  [String] and [Number]
    are assumed to round-trip at [wh], with [String(wh)] not empty. *)
Theorem session1_total_reference `{NumberText} (a : App) (endedAt : Z) (wh : JS.number) :
  session (study a) = session1 ->
  Telemetry.sessionTotalWh (energy a) = Some wh ->
  participantId (study a) <> "" ->
  String_of wh <> "" ->
  Number_of (String_of wh) = wh ->
  localStorage (handleEndTask endedAt a) !! s1TotalWh_key (participantId (study a))
    = Some (String_of wh)
  /\ s1TotalWh (handleEndTask endedAt a) = Some wh
  /\ (forall next : StudySettings,
        participantId next = participantId (study a) -> session next = session2 ->
        session1_reference (handleStudyChange next (handleEndTask endedAt a)) = Some wh)
  /\ (forall (b : App) (next : StudySettings),
        localStorage b !! s1TotalWh_key (participantId (study a)) = Some (String_of wh) ->
        participantId next = participantId (study a) ->
        participantId (study b) <> participantId next ->
        session next = session2 ->
        session1_reference (handleStudyChange next b) = Some wh)
  /\ (forall ls : gmap string string,
        ls !! s1TotalWh_key (participantId (study a)) = Some (String_of wh) ->
        initial_s1TotalWh ls (Some (participantId (study a))) = Some wh)
  /\ (forall (b : App) (next : StudySettings),
        localStorage b !! s1TotalWh_key (participantId next) = None ->
        participantId next <> "" ->
        participantId (study b) <> participantId next ->
        s1TotalWh (handleStudyChange next b) = None)
  /\ (forall (ls : gmap string string) (persistedId : option string),
        ls !! s1TotalWh_key (or_anon (default "" persistedId)) = None ->
        initial_s1TotalWh ls persistedId = None).
Proof.
  intros Hs1 Hwh Hid Hne Hrt.
  assert (Hstore : localStorage (handleEndTask endedAt a)
                     !! s1TotalWh_key (participantId (study a)) = Some (String_of wh)).
  { unfold handleEndTask. simpl. rewrite Hs1, Hwh, (or_anon_nonempty _ Hid).
    apply lookup_insert_eq. }
  assert (Hstate : s1TotalWh (handleEndTask endedAt a) = Some wh).
  { unfold handleEndTask. simpl. now rewrite Hs1, Hwh. }
  split; [exact Hstore|]. split; [exact Hstate|].
  split; [|split; [|split; [|split]]].
  - intros next Hnext H2. unfold handleStudyChange, session1_reference.
    replace (participantId (study (handleEndTask endedAt a)))
      with (participantId (study a)) by reflexivity.
    rewrite Hnext, String.eqb_refl, andb_false_r. simpl. now rewrite H2.
  - intros b next Hls Hnext Hdiff H2. unfold handleStudyChange, session1_reference.
    destruct (String.eqb_spec (participantId next) "") as [E|_];
      [rewrite Hnext in E; contradiction|].
    destruct (String.eqb_spec (participantId next) (participantId (study b))) as [E|_];
      [symmetry in E; contradiction|].
    simpl. rewrite H2, Hnext. now apply read_number_stored.
  - intros ls Hls. unfold initial_s1TotalWh. simpl.
    rewrite (or_anon_nonempty _ Hid). now apply read_number_stored.
  - intros b next Hls Hnext Hdiff. unfold handleStudyChange.
    destruct (String.eqb_spec (participantId next) "") as [E|_]; [contradiction|].
    destruct (String.eqb_spec (participantId next) (participantId (study b))) as [E|_];
      [symmetry in E; contradiction|].
    simpl. now apply read_number_absent.
  - intros ls persistedId Hls. unfold initial_s1TotalWh. now apply read_number_absent.
Qed.

(** For participant "P1" with 2.4 Wh at the end of session 1: the key
    ["ai4all.study.s1TotalWh.P1"] holds ["2.4"], and session 2 for "P1"
    shows 2.4, both in the same state and in an [App] mounted later that
    has received no energy reading at all. *)
Lemma session1_total_reference_witness :
  localStorage (@handleEndTask sample_text 2000 sample_session1)
    !! "ai4all.study.s1TotalWh.P1" = Some "2.4"
  /\ session1_reference
       (@handleStudyChange sample_text sample_next
          (@handleEndTask sample_text 2000 sample_session1)) = Some 2.4%float
  /\ Telemetry.sessionTotalWh (energy sample_later) = None
  /\ session1_reference (@handleStudyChange sample_text sample_next sample_later)
     = Some 2.4%float.
Proof.
  destruct (@session1_total_reference sample_text sample_session1 2000 2.4%float)
    as (H1 & _ & H3 & H4 & _); try reflexivity; try discriminate.
  split; [exact H1|].
  split; [apply H3; reflexivity|].
  split; [reflexivity|].
  apply H4; try reflexivity. discriminate.
Defined.

(** C5: the session-1 reference is not scoped to the participant without
    an id.  [handleEndTask] and the initializer of [s1TotalWh] take the
    empty id for the participant "anon", with a key of its own;
    [handleStudyChange] looks nothing up for it and keeps the total it
    holds.  After "P1" has ended session 1 with 2.4 Wh, nothing is stored
    under the key of "anon"; yet once the id is emptied and session 2
    chosen, 2.4 is shown as the session-1 total, where an [App] mounted over
    the same storage with the same settings shows none.  Whatever the state
    and the storage, a change to the empty id leaves the total as it was, so
    a total that is stored under the key of "anon" is not shown either. *)
Theorem empty_id_reference_stale :
  localStorage (@handleEndTask sample_text 2000 sample_session1)
    !! s1TotalWh_key (or_anon "") = None
  /\ session1_reference
       (@handleStudyChange sample_text sample_cleared
          (@handleStudyChange sample_text sample_emptied
             (@handleEndTask sample_text 2000 sample_session1))) = Some 2.4%float
  /\ session1_reference
       (@mount sample_text
          (localStorage (@handleEndTask sample_text 2000 sample_session1))
          sample_cleared_persisted) = None
  /\ (forall (T : NumberText) (a : App) (g : Group) (n : Session) (t1 t2 : option Z),
        s1TotalWh
          (@handleStudyChange T
             {| participantId := ""; group := g; session := n;
                taskStartedAt := t1; taskEndedAt := t2 |} a)
        = s1TotalWh a).
Proof.
  assert (Hls : localStorage (@handleEndTask sample_text 2000 sample_session1)
                  !! s1TotalWh_key (or_anon "") = None).
  { change (localStorage (@handleEndTask sample_text 2000 sample_session1))
      with (<[s1TotalWh_key "P1" := "2.4"]> (∅ : gmap string string)).
    rewrite lookup_insert_ne by discriminate. apply lookup_empty. }
  split; [exact Hls|]. split; [reflexivity|]. split; [|reflexivity].
  unfold session1_reference, mount. cbn [study session s1TotalWh default
    sample_cleared_persisted persisted_session persisted_participantId].
  unfold initial_s1TotalWh. now apply read_number_absent.
Qed.

End StudyFacts.

(** ** Mode resolution and chat submission *)

Module ChatFacts.

Import Transcript Chat.

Lemma or_truthy (a b : option string) : JS.truthy a = true -> JS.or a b = a.
Proof. intros H. unfold JS.or. now rewrite H. Qed.

Lemma or_falsy (a b : option string) : JS.truthy a = false -> JS.or a b = b.
Proof. intros H. unfold JS.or. now rewrite H. Qed.

Lemma truthy_Some (v : string) : v <> "" -> JS.truthy (Some v) = true.
Proof.
  intros H. simpl. destruct (String.eqb_spec v ""); [contradiction|reflexivity].
Qed.

(** [v || undefined] is falsy exactly when [v] is. *)
Lemma truthy_or_None (v : option string) : JS.truthy (JS.or v None) = JS.truthy v.
Proof. unfold JS.or. destruct (JS.truthy v) eqn:E; [exact E|reflexivity]. Qed.

(** C6: in the general-chat mode, under the "deep" profile a set (non-empty)
    deep preset is the effective model, whatever the chat override and the
    backend default are; under the "fast" profile a set fast preset is.  When
    the profile's preset is unset the effective model is the generic one of
    the chat mode, [modeOverrides.chat || modeDefaults?.chat?.default]. *)
Theorem preset_wins_over_generic (r : Modes.Registry) :
  (forall d : string,
     Modes.deepModel r = Some d -> d <> "" -> effective_chat_model deep r = Some d)
  /\ (forall f : string,
        Modes.fastModel r = Some f -> f <> "" -> effective_chat_model fast r = Some f)
  /\ (JS.truthy (Modes.deepModel r) = false ->
      effective_chat_model deep r = JS.or (Modes.chatModeModel r) None)
  /\ (JS.truthy (Modes.fastModel r) = false ->
      effective_chat_model fast r = JS.or (Modes.chatModeModel r) None)
  /\ Modes.chatModeModel r
     = JS.or (Modes.modeOverrides r !! Modes.chat) (Modes.backend_default r Modes.chat).
Proof.
  unfold effective_chat_model, activeModel, props_of. simpl.
  split; [|split; [|split; [|split]]].
  - intros d Hd Hne. rewrite Hd.
    rewrite (or_truthy (Some d) None (truthy_Some d Hne)).
    apply or_truthy, truthy_Some, Hne.
  - intros f Hf Hne. rewrite Hf.
    rewrite (or_truthy (Some f) None (truthy_Some f Hne)).
    apply or_truthy, truthy_Some, Hne.
  - intros H. apply or_falsy. now rewrite truthy_or_None.
  - intros H. apply or_falsy. now rewrite truthy_or_None.
  - reflexivity.
Qed.

(** C6 on a registry with the chat override "mistral", the backend default
    "llama3.1" and the deep preset "qwen3:8b", the fast preset unset. *)
Lemma preset_wins_over_generic_witness :
  effective_chat_model deep sample_registry = Some "qwen3:8b"
  /\ effective_chat_model fast sample_registry = Some "mistral".
Proof.
  destruct (preset_wins_over_generic sample_registry) as (Hd & _ & _ & Hf & _).
  split; [apply Hd; [reflexivity|discriminate]|].
  rewrite Hf; reflexivity.
Defined.

(** C7: submitting a prompt that is not blank while [activeModel] is unset
    sends no request, records no prompt metric and reports no model; it
    appends the one guidance message to the transcript and leaves the
    transcript before it, and the rest of the pane, as they were. *)
Theorem unresolved_model_guidance (now : Z) (resp : Response) (props : Props)
    (text : string) (p : Pane) :
  JS.trim text <> "" ->
  JS.truthy (activeModel (thinkingMode p) props) = false ->
  messages (fst (handleSend now resp props text p)) = messages p ++ [msg bot guidance]
  /\ files (fst (handleSend now resp props text p)) = files p
  /\ thinkingMode (fst (handleSend now resp props text p)) = thinkingMode p
  /\ isStreaming (fst (handleSend now resp props text p)) = isStreaming p
  /\ requests (snd (handleSend now resp props text p)) = []
  /\ userPrompts (snd (handleSend now resp props text p)) = []
  /\ modelChanges (snd (handleSend now resp props text p)) = [].
Proof.
  intros Htext Hmodel. unfold handleSend.
  destruct (String.eqb_spec (JS.trim text) ""); [contradiction|].
  destruct (activeModel (thinkingMode p) props) as [m|]; simpl in *.
  - destruct (String.eqb m ""); [|discriminate]. simpl. repeat split.
  - repeat split.
Qed.

(** C7 for the prompt "hello world" on a pane as it mounts, with nothing
    loaded or set in the registry. *)
Lemma unresolved_model_guidance_witness :
  messages (fst (handleSend 5 sample_stream (props_of empty_registry) "hello world" mounted))
    = [greeting; msg bot guidance]
  /\ requests (snd (handleSend 5 sample_stream (props_of empty_registry) "hello world" mounted))
     = []
  /\ userPrompts (snd (handleSend 5 sample_stream (props_of empty_registry) "hello world" mounted))
     = [].
Proof.
  destruct (unresolved_model_guidance 5 sample_stream (props_of empty_registry)
              "hello world" mounted) as (H1 & _ & _ & _ & H2 & H3 & _).
  - discriminate.
  - reflexivity.
  - split; [exact H1|]. split; [exact H2|exact H3].
Defined.

(** *** The stream consumer *)

Section StreamFacts.

Context {S : Type}.
Variable onDelta : string -> S -> S.
Variable onComplete : option (InferenceMetrics -> S -> S).

(** A payload that does not throw updates the metrics as [terminal_metrics]
    says. *)
Lemma on_payload_metrics (p : Payload) (s : S) (m : option InferenceMetrics) :
  JS.truthy (error p) = false ->
  exists s',
    on_payload onDelta onComplete p (s, m)
    = Some (s', match terminal_metrics p with Some x => Some x | None => m end).
Proof.
  intros He. unfold on_payload, terminal_metrics. rewrite He.
  destruct (done p), (inference_time_ms p); eexists; reflexivity.
Qed.

Lemma on_lines_metrics (ls : list Line) (s : S) (m : option InferenceMetrics) :
  existsb throws ls = false ->
  exists s', on_lines onDelta onComplete ls (s, m) = (s', Some (last_terminal ls m)).
Proof.
  revert s m. induction ls as [|l ls IH]; intros s m Hok.
  - eexists; reflexivity.
  - cbn [existsb] in Hok. apply orb_false_elim in Hok as [Hl Hls].
    destruct l as [| |p]; cbn [throws] in Hl; try discriminate;
      cbn [on_lines last_terminal].
    + apply IH, Hls.
    + destruct (on_payload_metrics p s m Hl) as [s' Hp]. rewrite Hp.
      apply IH, Hls.
Qed.

(** A stream in which no line throws, read to its end, resolves with the
    metrics of its last terminal frame, or with [undefined] if it has
    none. *)
Lemma on_chunks_metrics (cs : list (list Line)) (s : S) (m : option InferenceMetrics) :
  existsb throws (concat cs) = false ->
  snd (on_chunks onDelta onComplete cs Closed (s, m))
  = Resolved (last_terminal (concat cs) m).
Proof.
  revert s m. induction cs as [|c cs IH]; intros s m Hok; simpl; [reflexivity|].
  simpl in Hok. rewrite existsb_app in Hok. apply orb_false_elim in Hok as [Hc Hcs].
  destruct (on_lines_metrics c s m Hc) as [s' Hl]. rewrite Hl.
  rewrite IH by assumption. f_equal.
  clear. revert m. induction c as [|[| |p] c IHc]; intros m; simpl; auto.
Qed.

(** An invariant of the callback state that [onDelta] keeps is kept by the
    whole stream when there is no [onComplete]. *)
Variable P : S -> Prop.
Hypothesis onDelta_keeps : forall d s, P s -> P (onDelta d s).

Lemma on_payload_keeps (p : Payload) (acc acc' : S * option InferenceMetrics) :
  P (fst acc) -> on_payload onDelta None p acc = Some acc' -> P (fst acc').
Proof.
  destruct acc as [s m]. simpl. intros Hs. unfold on_payload.
  destruct (JS.truthy (error p)); [discriminate|].
  assert (Hd : P (match delta p with
                  | Some d => if String.eqb d "" then s else onDelta d s
                  | None => s
                  end)).
  { destruct (delta p) as [d|]; [destruct (String.eqb d "")|]; auto. }
  destruct (done p), (inference_time_ms p); intros [= <-]; exact Hd.
Qed.

Lemma on_lines_keeps (ls : list Line) (acc : S * option InferenceMetrics) :
  P (fst acc) -> P (fst (on_lines onDelta None ls acc)).
Proof.
  revert acc. induction ls as [|[| |p] ls IH]; intros acc Hs; simpl; auto.
  destruct (on_payload onDelta None p acc) as [acc'|] eqn:E; [|exact Hs].
  apply IH. exact (on_payload_keeps p acc acc' Hs E).
Qed.

Lemma on_chunks_keeps (cs : list (list Line)) (ending : Ending)
    (acc : S * option InferenceMetrics) :
  P (fst acc) -> P (fst (on_chunks onDelta None cs ending acc)).
Proof.
  revert acc. induction cs as [|c cs IH]; intros acc Hs; simpl.
  - destruct ending; exact Hs.
  - pose proof (on_lines_keeps c acc Hs) as Hc.
    destruct (on_lines onDelta None c acc) as [s [m|]]; simpl in Hc.
    + apply IH. exact Hc.
    + exact Hc.
Qed.

Lemma streamChat_keeps (resp : Response) (s : S) :
  P s -> P (fst (streamChat onDelta None resp s)).
Proof.
  intros Hs. destruct resp as [|cs ending]; simpl; [exact Hs|].
  now apply on_chunks_keeps.
Qed.

End StreamFacts.

Lemma no_metrics_removelast (m : list Msg) : no_metrics m -> no_metrics (removelast m).
Proof.
  unfold no_metrics. induction m as [|x [|y m] IH]; intros H; simpl.
  - constructor.
  - constructor.
  - inversion H; subst. constructor; [assumption|]. now apply IH.
Qed.

Lemma no_metrics_withoutBotTail (m : list Msg) :
  no_metrics m -> no_metrics (withoutBotTail m).
Proof.
  intros H. unfold withoutBotTail. destruct (last m) as [l|]; [|exact H].
  destruct (is_bot l); [now apply no_metrics_removelast|exact H].
Qed.

Lemma no_metrics_snoc (m : list Msg) (r : Role) (t : string) :
  no_metrics m -> no_metrics (m ++ [msg r t]).
Proof.
  intros H. apply Forall_app. split; [exact H|]. constructor; [reflexivity|constructor].
Qed.

(** [handleSend] never puts metrics on a message: whatever the stream
    returns, a transcript without metrics stays without. *)
Lemma handleSend_no_metrics (now : Z) (resp : Response) (props : Props)
    (text : string) (p : Pane) :
  no_metrics (messages p) ->
  no_metrics (messages (fst (handleSend now resp props text p))).
Proof.
  intros Hp. unfold handleSend.
  destruct (String.eqb (JS.trim text) ""); [exact Hp|].
  destruct (activeModel (thinkingMode p) props) as [m|];
    [|now apply no_metrics_snoc].
  destruct (String.eqb m ""); [now apply no_metrics_snoc|].
  pose proof (streamChat_keeps handleSend_onDelta
                (fun s : string * list Msg => no_metrics (snd s))) as Hk.
  specialize (Hk (fun d s Hs => no_metrics_snoc _ bot _ (no_metrics_withoutBotTail _ Hs))).
  specialize (Hk resp ("", messages p ++ [msg user text]) (no_metrics_snoc _ user _ Hp)).
  destruct (streamChat handleSend_onDelta None resp ("", messages p ++ [msg user text]))
    as [[acc msgs] outcome].
  simpl in *. destruct outcome; [exact Hk|now apply no_metrics_snoc].
Qed.

(** C3 on the sample stream (the delta "Hi", then the terminal frame with
    1200 ms and 0.05 Wh), sent for the prompt "hello" from a pane as it
    mounts: [streamChat] resolves with the one result of the stream, and
    [handleSend] drops it; the final bot message of the exchange has the
    text "Hi" and no metrics. *)
Theorem terminal_metrics_not_attached :
  snd (streamChat handleSend_onDelta None sample_stream
         ("", messages mounted ++ [msg user "hello"]))
  = Resolved (Some {| Transcript.inference_time_ms := Some 1200%float;
                      Transcript.energy_wh := 0.05%float |})
  /\ messages (fst (handleSend 5 sample_stream (props_of sample_registry) "hello" mounted))
     = [greeting; msg user "hello"; msg bot "Hi"]
  /\ final_metrics
       (messages (fst (handleSend 5 sample_stream (props_of sample_registry) "hello" mounted)))
     = None.
Proof. vm_compute. repeat split; reflexivity. Qed.

End ChatFacts.

(** ** Mode overrides and chat presets *)

Module ModesFacts.

Import Modes Presets.

(** [v || null] is [null] when it is falsy. *)
Lemma or_None_falsy (v : option string) :
  JS.truthy (JS.or v None) = false -> JS.or v None = None.
Proof.
  unfold JS.or. destruct (JS.truthy v) eqn:E; [|reflexivity].
  intros H. rewrite E in H. discriminate.
Qed.

(** X1: changing the override of one mode.  A falsy model ([null] or the
    empty string) removes the override, and the mode's model is the backend
    default again, whatever override was there before; a non-empty model
    becomes the mode's model; the models of the other modes, the backend
    defaults and the two presets stay as they are. *)
Theorem override_change (mode : ModeKey) (model : option string) (r : Registry) :
  (JS.truthy model = false ->
   mode_model (onModeOverrideChange mode model r) mode = backend_default r mode)
  /\ (JS.truthy model = true ->
      mode_model (onModeOverrideChange mode model r) mode = model)
  /\ (forall other : ModeKey, other <> mode ->
      mode_model (onModeOverrideChange mode model r) other = mode_model r other)
  /\ modeDefaults (onModeOverrideChange mode model r) = modeDefaults r
  /\ fastModel (onModeOverrideChange mode model r) = fastModel r
  /\ deepModel (onModeOverrideChange mode model r) = deepModel r.
Proof.
  unfold mode_model, backend_default, onModeOverrideChange. simpl.
  split; [|split; [|split; [|repeat split]]].
  - intros H. destruct model as [m|]; simpl in H.
    + destruct (String.eqb m ""); [|discriminate].
      now rewrite lookup_delete_eq.
    + now rewrite lookup_delete_eq.
  - intros H. destruct model as [m|]; simpl in H; [|discriminate].
    destruct (String.eqb m "") eqn:E; [discriminate|].
    rewrite lookup_insert_eq. unfold JS.or. simpl. now rewrite E.
  - intros other Hne. destruct model as [m|]; [destruct (String.eqb m "")|].
    + now rewrite lookup_delete_ne.
    + now rewrite lookup_insert_ne.
    + now rewrite lookup_delete_ne.
Qed.

(** X1 on the registry with the chat override "mistral" and the backend
    default "llama3.1": removing the override gives "llama3.1", setting
    "phi3" gives "phi3". *)
Lemma override_change_witness :
  mode_model (onModeOverrideChange chat None Chat.sample_registry) chat
    = Some "llama3.1"
  /\ mode_model (onModeOverrideChange chat (Some "phi3") Chat.sample_registry) chat
     = Some "phi3"
  /\ mode_model (onModeOverrideChange web (Some "phi3") Chat.sample_registry) chat
     = Some "mistral".
Proof.
  split; [|split].
  - destruct (override_change chat None Chat.sample_registry) as (H & _).
    rewrite H; reflexivity.
  - destruct (override_change chat (Some "phi3") Chat.sample_registry) as (_ & H & _).
    rewrite H; reflexivity.
  - destruct (override_change web (Some "phi3") Chat.sample_registry) as (_ & _ & H & _).
    rewrite H; [reflexivity|intros E; discriminate E].
Defined.

Lemma preset_keys_differ : fastModel_key <> deepModel_key.
Proof. discriminate. Qed.

Lemma load_persist_preset (key : string) (v : option string) (ls : gmap string string) :
  load_preset (persist_preset key v ls) key = JS.or v None.
Proof.
  unfold load_preset, persist_preset. destruct v as [m|].
  - unfold JS.or at 2. simpl. destruct (String.eqb m "") eqn:E; simpl.
    + now rewrite lookup_delete_eq.
    + rewrite lookup_insert_eq. unfold JS.or. simpl. now rewrite E.
  - now rewrite lookup_delete_eq.
Qed.

Lemma load_persist_preset_ne (key key' : string) (v : option string)
    (ls : gmap string string) :
  key' <> key -> load_preset (persist_preset key v ls) key' = load_preset ls key'.
Proof.
  intros Hne. unfold load_preset, persist_preset.
  destruct v as [m|]; [destruct (String.eqb m "")|].
  - now rewrite lookup_delete_ne.
  - now rewrite lookup_insert_ne.
  - now rewrite lookup_delete_ne.
Qed.

(** X2: the presets survive a reload.  Mounting over the storage the two
    persisting effects leave gives back each preset that was set, and
    [null] for a preset that was [null] or empty, whatever the storage held
    before. *)
Theorem presets_round_trip (r : Registry) (ls : gmap string string)
    (overrides : gmap ModeKey string) :
  fastModel (mount (persist r ls) overrides) = JS.or (fastModel r) None
  /\ deepModel (mount (persist r ls) overrides) = JS.or (deepModel r) None.
Proof.
  unfold mount, persist. simpl. split.
  - rewrite load_persist_preset_ne by exact preset_keys_differ.
    apply load_persist_preset.
  - apply load_persist_preset.
Qed.

(** X3: seeding the presets from the backend.  A preset that was found in
    storage at mount is kept when the backend defaults arrive; a preset that
    was not found is taken from the backend's [fast] or [thinking] default
    for the chat mode when that is declared, and stays unset otherwise.  The
    overrides are kept and the defaults recorded. *)
Theorem seeding_from_backend (ls : gmap string string)
    (overrides : gmap ModeKey string) (defaults : gmap ModeKey ModeInfo) :
  (JS.truthy (load_preset ls fastModel_key) = true ->
   fastModel (mount_then_defaults ls overrides defaults) = load_preset ls fastModel_key)
  /\ (JS.truthy (load_preset ls deepModel_key) = true ->
      deepModel (mount_then_defaults ls overrides defaults)
      = load_preset ls deepModel_key)
  /\ (forall info : ModeInfo,
        defaults !! chat = Some info ->
        JS.truthy (load_preset ls fastModel_key) = false ->
        fastModel (mount_then_defaults ls overrides defaults) = JS.or (fast info) None)
  /\ (forall info : ModeInfo,
        defaults !! chat = Some info ->
        JS.truthy (load_preset ls deepModel_key) = false ->
        deepModel (mount_then_defaults ls overrides defaults)
        = JS.or (thinking info) None)
  /\ modeOverrides (mount_then_defaults ls overrides defaults) = overrides
  /\ modeDefaults (mount_then_defaults ls overrides defaults) = Some defaults.
Proof.
  unfold mount_then_defaults, onModeDefaults, mount.
  split; [|split; [|split; [|split; [|split]]]].
  - intros H. destruct (defaults !! chat); simpl; [now rewrite H|reflexivity].
  - intros H. destruct (defaults !! chat); simpl; [now rewrite H|reflexivity].
  - intros info Hinfo H. rewrite Hinfo. simpl. rewrite H. simpl.
    unfold JS.or at 1. destruct (JS.truthy (fast info)) eqn:E; [reflexivity|].
    now apply or_None_falsy.
  - intros info Hinfo H. rewrite Hinfo. simpl. rewrite H. simpl.
    unfold JS.or at 1. destruct (JS.truthy (thinking info)) eqn:E; [reflexivity|].
    now apply or_None_falsy.
  - destruct (defaults !! chat); reflexivity.
  - destruct (defaults !! chat); reflexivity.
Qed.

(** X3 with the deep preset "qwen3:8b" stored and no fast preset: after the
    backend declares "llama3.2:1b" and "deepseek-r1", the deep preset is
    still "qwen3:8b" and the fast preset is "llama3.2:1b". *)
Lemma seeding_from_backend_witness :
  deepModel (mount_then_defaults {[ deepModel_key := "qwen3:8b" ]} ∅ sample_defaults)
    = Some "qwen3:8b"
  /\ fastModel (mount_then_defaults {[ deepModel_key := "qwen3:8b" ]} ∅ sample_defaults)
     = Some "llama3.2:1b".
Proof.
  destruct (seeding_from_backend {[ deepModel_key := "qwen3:8b" ]} ∅ sample_defaults)
    as (_ & Hd & Hf & _).
  split; [rewrite Hd; reflexivity|].
  rewrite (Hf _ eq_refl); reflexivity.
Defined.

End ModesFacts.

(** ** The stream consumer and the transcript it leaves *)

Module ConsumerFacts.

Import Transcript Chat Stream.

Lemma before_throw_app (l r : list Line) :
  before_throw (l ++ r)
  = if existsb throws l then before_throw l else l ++ before_throw r.
Proof.
  induction l as [|x l IH]; simpl; [reflexivity|].
  destruct (throws x); simpl; [reflexivity|]. rewrite IH.
  destruct (existsb throws l); reflexivity.
Qed.

Lemma before_throw_clean (l : list Line) :
  existsb throws l = false -> before_throw l = l.
Proof.
  induction l as [|x l IH]; simpl; [reflexivity|].
  destruct (throws x); simpl; [discriminate|]. intros H. now rewrite IH.
Qed.

Lemma last_terminal_app (l r : list Line) (m : option InferenceMetrics) :
  last_terminal (l ++ r) m = last_terminal r (last_terminal l m).
Proof.
  revert m. induction l as [|[| |p] l IH]; intros m; simpl; auto.
Qed.

Lemma deliver_deltas_app {S : Type} (onDelta : string -> S -> S)
    (ds es : list string) (s : S) :
  deliver_deltas onDelta (ds ++ es) s
  = deliver_deltas onDelta es (deliver_deltas onDelta ds s).
Proof. unfold deliver_deltas. apply fold_left_app. Qed.

Section Consumer.

Context {S : Type}.
Variable onDelta : string -> S -> S.

(** One payload that does not throw, without [onComplete]. *)
Lemma on_payload_clean (p : Payload) (s : S) (m : option InferenceMetrics) :
  JS.truthy (error p) = false ->
  on_payload onDelta None p (s, m)
  = Some (deliver_deltas onDelta (omap delta_of [Data p]) s,
          match terminal_metrics p with Some x => Some x | None => m end).
Proof.
  intros He. unfold on_payload, terminal_metrics. rewrite He. simpl.
  destruct (delta p) as [d|]; [destruct (String.eqb d "")|];
    destruct (done p), (inference_time_ms p); reflexivity.
Qed.

(** The lines of one chunk: the deltas before the first throwing line are
    delivered, in order; the loop ends with the metrics of the last terminal
    frame, or with a throw. *)
Lemma on_lines_spec (ls : list Line) (s : S) (m : option InferenceMetrics) :
  on_lines onDelta None ls (s, m)
  = (deliver_deltas onDelta (omap delta_of (before_throw ls)) s,
     if existsb throws ls then None else Some (last_terminal ls m)).
Proof.
  revert s m. induction ls as [|l ls IH]; intros s m; [reflexivity|].
  destruct l as [| |p]; cbn [on_lines before_throw throws existsb orb last_terminal].
  - rewrite IH. reflexivity.
  - reflexivity.
  - destruct (JS.truthy (error p)) eqn:He.
    + unfold on_payload. rewrite He. reflexivity.
    + rewrite (on_payload_clean p s m He), IH. cbn [orb]. f_equal.
      change (Data p :: before_throw ls) with ([Data p] ++ before_throw ls).
      rewrite omap_app, deliver_deltas_app. reflexivity.
Qed.

Lemma on_chunks_spec (cs : list (list Line)) (ending : Ending) (s : S)
    (m : option InferenceMetrics) :
  on_chunks onDelta None cs ending (s, m)
  = (deliver_deltas onDelta (omap delta_of (before_throw (concat cs))) s,
     if existsb throws (concat cs) then Rejected
     else match ending with
          | Closed => Resolved (last_terminal (concat cs) m)
          | ReadError => Rejected
          end).
Proof.
  revert s m. induction cs as [|c cs IH]; intros s m.
  - simpl. destruct ending; reflexivity.
  - cbn [on_chunks concat]. rewrite on_lines_spec, before_throw_app, existsb_app.
    destruct (existsb throws c) eqn:Hc; [reflexivity|].
    rewrite IH. cbn [orb].
    rewrite omap_app, deliver_deltas_app, last_terminal_app, (before_throw_clean c Hc).
    reflexivity.
Qed.

End Consumer.


(** X4: what [streamChat] hands to [onDelta], called without [onComplete]
    as [handleSend] calls it.  Whatever the response, the callback receives
    exactly the non-empty deltas of the frames read before the first line
    that throws (JSON that does not parse, or a frame with an error), each
    once and in arrival order; nothing of or after the throwing line is
    delivered. *)
Theorem streamChat_delivers {S : Type} (onDelta : string -> S -> S)
    (resp : Response) (s : S) :
  fst (streamChat onDelta None resp s) = deliver_deltas onDelta (delivered resp) s.
Proof.
  destruct resp as [|cs ending]; [reflexivity|].
  unfold streamChat, delivered, lines_of. now rewrite on_chunks_spec.
Qed.

(** X5: how [streamChat] settles, called without [onComplete] as
    [handleSend] calls it.  The promise rejects exactly when [fetch]
    rejects, a line throws, or reading the body fails; otherwise it resolves
    with the metrics of the last terminal frame of the stream, and with
    [undefined] when the stream has no terminal frame.  A frame is terminal
    when it is done and has the key [inference_time_ms], whatever it holds,
    [null] included; its metrics are what that key holds and its
    [energy_wh], taking a missing or [null] [energy_wh] as 0. *)
Theorem streamChat_settles {S : Type} (onDelta : string -> S -> S)
    (resp : Response) (s : S) :
  snd (streamChat onDelta None resp s)
  = (if rejects resp then Rejected
     else Resolved (last_terminal (lines_of resp) None))
  /\ (forall (p : Payload) (t : option JS.number),
        done p = true -> inference_time_ms p = Some t ->
        terminal_metrics p
        = Some {| Transcript.inference_time_ms := t;
                  Transcript.energy_wh := JS.nullish_zero (energy_wh p) |})
  /\ (forall p : Payload, inference_time_ms p = None -> terminal_metrics p = None)
  /\ (forall p : Payload, done p = false -> terminal_metrics p = None).
Proof.
  split; [|split; [|split]].
  - destruct resp as [|cs ending]; [reflexivity|].
    unfold streamChat, rejects, lines_of. rewrite on_chunks_spec. simpl.
    destruct (existsb throws (concat cs)); [reflexivity|].
    destruct ending; reflexivity.
  - intros p t Hd Ht. unfold terminal_metrics. now rewrite Hd, Ht.
  - intros p Ht. unfold terminal_metrics. rewrite Ht. now destruct (done p).
  - intros p Hd. unfold terminal_metrics. now rewrite Hd.
Qed.

(** X5 on a stream whose last frame is done with [inference_time_ms: null]:
    the promise resolves with the metrics of that frame, [null] and 0, and
    not with those of the terminal frame before it. *)
Lemma streamChat_settles_witness :
  snd (streamChat handleSend_onDelta None sample_null_timing ("", []))
  = Resolved (Some {| Transcript.inference_time_ms := None;
                      Transcript.energy_wh := 0%float |}).
Proof.
  destruct (streamChat_settles handleSend_onDelta sample_null_timing ("", []))
    as (H & _).
  rewrite H. reflexivity.
Defined.

(** *** The transcript after [handleSend] *)








(** The prompt metric and the model a submission that reaches the backend
    reports. *)
Lemma handleSend_reports (now : Z) (resp : Response) (props : Props)
    (text : string) (p : Pane) (m : string) :
  JS.trim text <> "" ->
  activeModel (thinkingMode p) props = Some m -> m <> "" ->
  userPrompts (snd (handleSend now resp props text p))
  = [{| Study.ts := now; Study.text := text;
        Study.words := JS.split_space_length (JS.trim text);
        Study.chars := String.length text |}]
  /\ modelChanges (snd (handleSend now resp props text p)) = [m].
Proof.
  intros Htext Hmodel Hm. unfold handleSend.
  destruct (String.eqb_spec (JS.trim text) ""); [contradiction|].
  rewrite Hmodel. destruct (String.eqb_spec m ""); [contradiction|].
  destruct (streamChat handleSend_onDelta None resp ("", messages p ++ [msg user text]))
    as [[acc msgs] outcome].
  simpl. split; [|reflexivity]. do 2 f_equal.
  destruct (JS.trim text); [contradiction|reflexivity].
Qed.

(** X7: what a submission that reaches the backend does outside the pane,
    whatever the stream then does, failure included: it sends one request,
    with the text as given, the resolved model, the pane's files and its
    thinking mode; it records one prompt metric with the given time and
    text, the length of the text, and the number of white-space separated
    words of the trimmed text; and it reports the resolved model once. *)
Theorem handleSend_effects (now : Z) (resp : Response) (props : Props)
    (text : string) (p : Pane) (m : string) :
  JS.trim text <> "" ->
  activeModel (thinkingMode p) props = Some m -> m <> "" ->
  requests (snd (handleSend now resp props text p))
  = [{| req_prompt := text; req_model := m; req_files := files p;
        req_thinkingMode := thinkingMode p |}]
  /\ userPrompts (snd (handleSend now resp props text p))
     = [{| Study.ts := now; Study.text := text;
           Study.words := JS.split_space_length (JS.trim text);
           Study.chars := String.length text |}]
  /\ modelChanges (snd (handleSend now resp props text p)) = [m].
Proof.
  intros Htext Hmodel Hm. unfold handleSend.
  destruct (String.eqb_spec (JS.trim text) ""); [contradiction|].
  rewrite Hmodel. destruct (String.eqb_spec m ""); [contradiction|].
  destruct (streamChat handleSend_onDelta None resp ("", messages p ++ [msg user text]))
    as [[acc msgs] outcome].
  simpl. repeat split. do 2 f_equal.
  destruct (JS.trim text); [contradiction|reflexivity].
Qed.

(** X7 for "hello world" on the broken sample stream: one request to
    "mistral" and one metric of 2 words and 11 characters, although the
    stream fails.  And for "a" and "b" with a no-break space between them:
    2 words and 3 characters. *)
Lemma handleSend_effects_witness :
  requests (snd (handleSend 5 sample_broken (props_of sample_registry)
                   "hello world" mounted))
  = [{| req_prompt := "hello world"; req_model := "mistral"; req_files := [];
        req_thinkingMode := fast |}]
  /\ userPrompts (snd (handleSend 5 sample_broken (props_of sample_registry)
                         "hello world" mounted))
     = [{| Study.ts := 5; Study.text := "hello world"; Study.words := 2;
           Study.chars := 11 |}]
  /\ userPrompts (snd (handleSend 5 sample_broken (props_of sample_registry)
                         ("a" +:+ ChatInput.nbsp +:+ "b") mounted))
     = [{| Study.ts := 5; Study.text := "a" +:+ ChatInput.nbsp +:+ "b";
           Study.words := 2; Study.chars := 3 |}].
Proof.
  destruct (handleSend_effects 5 sample_broken (props_of sample_registry)
              "hello world" mounted "mistral") as (H1 & H2 & _).
  - discriminate.
  - reflexivity.
  - discriminate.
  - split; [exact H1|]. split; [exact H2|].
    destruct (handleSend_effects 5 sample_broken (props_of sample_registry)
                ("a" +:+ ChatInput.nbsp +:+ "b") mounted "mistral")
      as (_ & H3 & _).
    + discriminate.
    + reflexivity.
    + discriminate.
    + exact H3.
Defined.

(** The unresolved-model return of [handleSend], as far as [App] sees it. *)
Lemma handleSend_unresolved (now : Z) (resp : Response) (props : Props)
    (text : string) (p : Pane) :
  JS.trim text <> "" ->
  JS.truthy (activeModel (thinkingMode p) props) = false ->
  userPrompts (snd (handleSend now resp props text p)) = []
  /\ modelChanges (snd (handleSend now resp props text p)) = [].
Proof.
  intros Htext Hmodel. unfold handleSend.
  destruct (String.eqb_spec (JS.trim text) ""); [contradiction|].
  destruct (activeModel (thinkingMode p) props) as [m|]; simpl in *.
  - destruct (String.eqb m ""); [|discriminate]. split; reflexivity.
  - split; reflexivity.
Qed.

End ConsumerFacts.

(** ** The chat composer *)

Module ChatInputFacts.

Import ChatInput.

Lemma append_empty_r (s : string) : s +:+ "" = s.
Proof.
  induction s as [|c s IH]; [reflexivity|].
  change (String c (s +:+ "") = String c s). f_equal. exact IH.
Qed.

(** Reversing twice, with accumulators. *)
Lemma rev_string_rev_string (s acc b : string) :
  JS.rev_string b (JS.rev_string acc s) = JS.rev_string (s +:+ b) acc.
Proof.
  revert acc b. induction s as [|c s IH]; intros acc b; [reflexivity|].
  cbn [JS.rev_string]. rewrite IH. reflexivity.
Qed.

Lemma rev_string_involutive (s : string) :
  JS.rev_string "" (JS.rev_string "" s) = s.
Proof. rewrite rev_string_rev_string. exact (append_empty_r s). Qed.

Lemma drop_space_starts_clean (s : string) : starts_clean (JS.drop_space s).
Proof.
  induction s as [|c s IH]; simpl; [exact I|].
  destruct (JS.is_space c) eqn:E; [exact IH|exact E].
Qed.

Lemma drop_space_clean (s : string) : starts_clean s -> JS.drop_space s = s.
Proof. destruct s as [|c s]; simpl; [reflexivity|]. intros H. now rewrite H. Qed.

Lemma drop_space_ends_clean (s : string) :
  ends_clean s -> ends_clean (JS.drop_space s).
Proof.
  induction s as [|c s IH]; intros H; [exact I|].
  cbn [JS.drop_space]. destruct (JS.is_space c) eqn:E; [|exact H].
  apply IH. destruct s as [|d s]; [exact I|exact H].
Qed.

(** The last code unit of a reversal is the last of a non-empty
    accumulator. *)
Lemma rev_string_ends_clean (s acc : string) :
  acc <> "" -> ends_clean (JS.rev_string acc s) <-> ends_clean acc.
Proof.
  revert acc. induction s as [|c s IH]; intros acc Hacc; simpl; [reflexivity|].
  rewrite IH by discriminate. destruct acc; [contradiction|reflexivity].
Qed.

Lemma rev_ends_clean (s : string) :
  ends_clean (JS.rev_string "" s) <-> starts_clean s.
Proof.
  destruct s as [|c s]; simpl; [reflexivity|].
  rewrite rev_string_ends_clean by discriminate. reflexivity.
Qed.

Lemma rev_starts_clean (s : string) :
  starts_clean (JS.rev_string "" s) <-> ends_clean s.
Proof.
  rewrite <- (rev_ends_clean (JS.rev_string "" s)), rev_string_involutive.
  reflexivity.
Qed.

(** A trimmed string starts and ends with something else than white
    space. *)
Lemma trim_clean (s : string) :
  starts_clean (JS.trim s) /\ ends_clean (JS.trim s).
Proof.
  unfold JS.trim. split.
  - apply rev_starts_clean, drop_space_ends_clean, rev_ends_clean,
      drop_space_starts_clean.
  - apply rev_ends_clean, drop_space_starts_clean.
Qed.

Lemma trim_of_clean (s : string) :
  starts_clean s -> ends_clean s -> JS.trim s = s.
Proof.
  intros Hs He. unfold JS.trim. rewrite (drop_space_clean s Hs).
  rewrite drop_space_clean by now apply rev_starts_clean.
  apply rev_string_involutive.
Qed.

Lemma trim_idempotent (s : string) : JS.trim (JS.trim s) = JS.trim s.
Proof. destruct (trim_clean s). now apply trim_of_clean. Qed.

(** X8: what the composer submits.  [doSend] calls [onSend] only with a
    text that is not empty, that neither starts nor ends with white space
    and that trimming leaves as it is, and then clears the composer; on a
    blank text it calls nothing and keeps the text.  So [handleSend] never
    takes its blank-prompt return on a composer submission, and on a blank
    text of its own it changes nothing and sends nothing. *)
Theorem doSend_submits_trimmed (text : string) :
  (forall sent : string,
     fst (doSend text) = Some sent ->
     sent <> "" /\ JS.trim sent = sent
     /\ starts_clean sent /\ ends_clean sent
     /\ snd (doSend text) = "")
  /\ (fst (doSend text) = None -> JS.trim text = "" /\ snd (doSend text) = text)
  /\ (forall (now : Z) (resp : Chat.Response) (props : Chat.Props) (p : Chat.Pane),
        JS.trim text = "" ->
        Chat.handleSend now resp props text p = (p, Chat.no_effects)).
Proof.
  unfold doSend. split; [|split].
  - intros sent. destruct (String.eqb_spec (JS.trim text) "") as [E|E]; simpl;
      [discriminate|].
    intros [= <-]. destruct (trim_clean text) as [Hs He].
    repeat split; try assumption. apply trim_idempotent.
  - destruct (String.eqb_spec (JS.trim text) "") as [E|E]; simpl; [auto|discriminate].
  - intros now resp props p E. unfold Chat.handleSend. now rewrite E.
Qed.

(** X8 on a text with white space around two words, on a text of white
    space only, and on texts with no-break spaces: around a word they are
    trimmed, and alone they are a blank text. *)
Lemma doSend_submits_trimmed_witness :
  (JS.trim "hello  world" = "hello  world"
   /\ doSend "  hello  world " = (Some "hello  world", ""))
  /\ doSend "   " = (None, "   ")
  /\ doSend (nbsp +:+ "hi" +:+ nbsp) = (Some "hi", "")
  /\ (JS.trim nbsp = "" /\ doSend nbsp = (None, nbsp)).
Proof.
  split; [|split; [reflexivity|split; [reflexivity|]]].
  - destruct (doSend_submits_trimmed "  hello  world ") as (H & _).
    destruct (H "hello  world" eq_refl) as (_ & Htrim & _).
    split; [exact Htrim|reflexivity].
  - destruct (doSend_submits_trimmed nbsp) as (_ & H & _).
    destruct (H eq_refl) as (Ht & Hk). split; [exact Ht|].
    apply injective_projections; [reflexivity|exact Hk].
Defined.

End ChatInputFacts.

(** ** The study controls over whole runs *)

Module ControlsFacts.

Import Study Controls.

Section WithText.

Context `{NumberText} `{SettingsText}.

Lemma running_started (s : StudySettings) :
  running s = true -> JS.truthy_time (taskStartedAt s) = true.
Proof. unfold running. intros Hr. now apply andb_prop in Hr as [Hs _]. Qed.

Lemma mount_sound (ls : gmap string string) (p : Persisted) : sound (mount ls p).
Proof.
  repeat split; simpl.
  - lia.
  - constructor.
  - discriminate.
  - constructor.
Qed.

Lemma act_sound (x : Action) (a : App) : sound a -> sound (act x a).
Proof.
  intros (Hw & Ht & Hb).
  assert (Ha : sound a) by (split; [exact Hw|split; [exact Ht|exact Hb]]).
  destruct x as [now|now| | |pid g n|ev]; simpl.
  - unfold click_Start. destruct (running (study a)); [exact Ha|].
    split; [exact Hw|]. split; [discriminate|exact Hb].
  - unfold click_End. destruct (running (study a)) eqn:Hr; [|exact Ha].
    apply running_started in Hr. split; [exact Hw|]. split; [intros _ _; exact Hr|].
    simpl. apply Forall_app. split; [exact Hb|]. constructor; [exact Hr|constructor].
  - unfold click_Reset. destruct (running (study a)); [exact Ha|].
    split; [exact TelemetryFacts.initial_window_ok|]. split; [discriminate|exact Hb].
  - split; [exact TelemetryFacts.initial_window_ok|]. split; [discriminate|exact Hb].
  - unfold settings_effect, handleStudyChange.
    destruct (negb _ && negb _); exact Ha.
  - destruct ev; simpl; try exact Ha.
    split; [now apply TelemetryFacts.onPowerUpdate_window_ok|].
    split; [exact Ht|exact Hb].
Qed.

(** X9: an invariant of every run.  From any mount, after any sequence of
    clicks on Start, End and Reset, at any times, resets that clear the
    state late, changes to the settings, recorded prompts, telemetry pushes
    and transcript changes: the rolling window holds at most two entries,
    all positive; the settings never hold an end time without a start time
    that is set and not 0; and every session saved so far was saved for a
    task that had been started. *)
Theorem every_run_sound (xs : list Action) (ls : gmap string string) (p : Persisted) :
  length (Telemetry.promptWhHistory (energy (acts xs (mount ls p)))) <= 2
  /\ Forall (fun v => JS.gt v 0%float = true)
            (Telemetry.promptWhHistory (energy (acts xs (mount ls p))))
  /\ (forall t : Z,
        taskEndedAt (study (acts xs (mount ls p))) = Some t ->
        JS.truthy_time (taskStartedAt (study (acts xs (mount ls p)))) = true)
  /\ Forall (fun b => JS.truthy_time (rec_taskStartedAt (session_record b)) = true)
            (savedSessions (acts xs (mount ls p))).
Proof.
  assert (Hs : forall a, sound a -> sound (acts xs a)).
  { induction xs as [|x xs IH]; intros a Ha; [exact Ha|].
    apply (IH (act x a)), act_sound, Ha. }
  destruct (Hs _ (mount_sound ls p)) as ((Hlen & Hpos) & Ht & Hb).
  repeat split; assumption.
Qed.

Lemma on_events_promptMetrics (es : list Event) (a : App) :
  promptMetrics (on_events es a) = promptMetrics a ++ prompts_of es.
Proof.
  revert a. induction es as [|ev es IH]; intros a.
  - simpl. now rewrite app_nil_r.
  - change (on_events (ev :: es) a) with (on_events es (on_event ev a)).
    rewrite IH. destruct ev; simpl; try reflexivity.
    now rewrite <- app_assoc.
Qed.

Lemma on_events_savedSessions (es : list Event) (a : App) :
  savedSessions (on_events es a) = savedSessions a.
Proof.
  revert a. induction es as [|ev es IH]; intros a; [reflexivity|].
  change (on_events (ev :: es) a) with (on_events es (on_event ev a)).
  rewrite IH. destruct ev; reflexivity.
Qed.


(** X10: what a task saves.  When Start is clicked on a task that is not
    running, at a time other than 0, and End is clicked after any prompts,
    telemetry pushes and transcript changes, exactly one session is added to
    the saved ones.  Its prompt metrics are the prompts recorded since
    Start, in order, and none from before; its start and end times are the
    two click times; its name is the trimmed participant id, or "anon" for
    an empty id, followed by ["_s"] and the session number. *)
Theorem task_saves_its_window (a : App) (t1 t2 : Z) (es : list Event) :
  running (study a) = false -> t1 <> 0%Z ->
  exists b : Bundle,
    savedSessions (click_End t2 (on_events es (click_Start t1 a)))
    = savedSessions a ++ [b]
    /\ metrics b = prompts_of es
    /\ rec_taskStartedAt (session_record b) = Some t1
    /\ rec_taskEndedAt (session_record b) = t2
    /\ name b = JS.trim (or_anon (participantId (study a))) +:+ "_s"
                +:+ Session_digit (session (study a))
    /\ rec_participantId (session_record b) = participantId (study a)
    /\ rec_group (session_record b) = group (study a).
Proof.
  intros Hr Ht.
  assert (Hs : click_Start t1 a = handleStartTask t1 a)
    by (unfold click_Start; now rewrite Hr).
  assert (Hrun : running (study (on_events es (click_Start t1 a))) = true)
    by (rewrite StudyFacts.on_events_study; now apply StudyFacts.click_Start_running).
  unfold click_End. rewrite Hrun. eexists.
  split; [|split; [|split; [|split; [|split; [|split]]]]].
  - unfold handleEndTask. cbn [savedSessions]. rewrite on_events_savedSessions, Hs.
    reflexivity.
  - cbn [metrics]. now rewrite on_events_promptMetrics.
  - cbn [session_record rec_taskStartedAt]. now rewrite StudyFacts.on_events_study.
  - reflexivity.
  - cbn [name]. now rewrite StudyFacts.on_events_study.
  - cbn [session_record rec_participantId]. now rewrite StudyFacts.on_events_study.
  - cbn [session_record rec_group]. now rewrite StudyFacts.on_events_study.
Qed.

Lemma append_inj_l (p x y : string) : p +:+ x = p +:+ y -> x = y.
Proof.
  induction p as [|c p IH]; intros E; [exact E|].
  change (String c (p +:+ x) = String c (p +:+ y)) in E.
  injection E as E. now apply IH.
Qed.

(** The key of a snapshot names its participant, and is not the key of the
    settings. *)
Lemma s1TotalWh_key_inj (x y : string) : s1TotalWh_key x = s1TotalWh_key y -> x = y.
Proof. apply append_inj_l. Qed.

Lemma s1TotalWh_key_not_settings (x : string) : s1TotalWh_key x <> LS_SETTINGS_KEY.
Proof. intros E. discriminate E. Qed.

(** X11: snapshots are scoped to their participant.  Ending a task writes
    to storage at most the key of the current participant ("anon" for an
    empty id): every other key, and with it the stored session-1 total of
    every other participant, reads as before.  Nothing at all is written
    when the session is 2 or when no energy reading has arrived, and a
    change of the settings never touches a stored total. *)
Theorem snapshots_are_scoped (a : App) (t : Z) :
  (forall key : string,
     key <> s1TotalWh_key (or_anon (participantId (study a))) ->
     localStorage (handleEndTask t a) !! key = localStorage a !! key)
  /\ (forall other : string,
        or_anon other <> or_anon (participantId (study a)) ->
        read_number (localStorage (handleEndTask t a)) (s1TotalWh_key (or_anon other))
        = read_number (localStorage a) (s1TotalWh_key (or_anon other)))
  /\ (session (study a) = session2 ->
      localStorage (handleEndTask t a) = localStorage a
      /\ s1TotalWh (handleEndTask t a) = s1TotalWh a)
  /\ (Telemetry.sessionTotalWh (energy a) = None ->
      localStorage (handleEndTask t a) = localStorage a
      /\ s1TotalWh (handleEndTask t a) = s1TotalWh a)
  /\ (forall (pid other : string) (g : Group) (n : Session),
        read_number (localStorage (settings_effect pid g n a)) (s1TotalWh_key other)
        = read_number (localStorage a) (s1TotalWh_key other)).
Proof.
  assert (Hkey : forall key : string,
            key <> s1TotalWh_key (or_anon (participantId (study a))) ->
            localStorage (handleEndTask t a) !! key = localStorage a !! key).
  { intros key Hne. unfold handleEndTask. cbn [localStorage].
    destruct (session (study a)), (Telemetry.sessionTotalWh (energy a));
      try reflexivity.
    now apply lookup_insert_ne. }
  split; [exact Hkey|]. split; [|split; [|split]].
  - intros other Hne. unfold read_number. rewrite Hkey; [reflexivity|].
    intros E. apply s1TotalWh_key_inj in E. contradiction.
  - intros Hs. unfold handleEndTask. cbn [localStorage s1TotalWh]. now rewrite Hs.
  - intros He. unfold handleEndTask. cbn [localStorage s1TotalWh]. rewrite He.
    destruct (session (study a)); split; reflexivity.
  - intros pid other g n. unfold read_number, settings_effect.
    cbn [set_localStorage localStorage].
    rewrite lookup_insert_ne by (apply not_eq_sym, s1TotalWh_key_not_settings).
    unfold handleStudyChange. destruct (negb _ && negb _); reflexivity.
Qed.


End WithText.

(** X9 for a run from an empty mount: the settings are entered, Start is
    clicked at 1000, a push arrives, End is clicked at 2000.  The end time
    2000 stands next to a start time that is set. *)
Lemma every_run_sound_witness :
  JS.truthy_time
    (taskStartedAt
       (study
          (@acts sample_text sample_settings_text
             [Settings " P1 " control session1; Start 1000;
              Background (PowerUpdate Telemetry.sample_push); End_ 2000]
             (@mount sample_text ∅ nothing_persisted)))) = true
  /\ length
       (savedSessions
          (@acts sample_text sample_settings_text
             [Settings " P1 " control session1; Start 1000;
              Background (PowerUpdate Telemetry.sample_push); End_ 2000]
             (@mount sample_text ∅ nothing_persisted))) = 1.
Proof.
  destruct (@every_run_sound sample_text sample_settings_text
              [Settings " P1 " control session1; Start 1000;
               Background (PowerUpdate Telemetry.sample_push); End_ 2000]
              ∅ nothing_persisted) as (_ & _ & H & _).
  split; [apply (H 2000%Z); reflexivity|reflexivity].
Defined.

(** X11 for "P2" ending session 1 over the storage "P1" left behind: the
    total stored for "P1" still reads 2.4. *)
Lemma snapshots_are_scoped_witness :
  @read_number sample_text
    (localStorage
       (@handleEndTask sample_text 4000
          (onPowerUpdate Telemetry.sample_push
             (click_Start 3000
                (@settings_effect sample_text sample_settings_text
                   "P2" control session1
                   (@handleEndTask sample_text 2000 sample_session1))))))
    (s1TotalWh_key "P1") = Some 2.4%float.
Proof.
  destruct (@snapshots_are_scoped sample_text sample_settings_text
              (onPowerUpdate Telemetry.sample_push
                 (click_Start 3000
                    (@settings_effect sample_text sample_settings_text
                       "P2" control session1
                       (@handleEndTask sample_text 2000 sample_session1))))
              4000) as (_ & H & _).
  refine (eq_trans (H "P1" _) _); [discriminate|reflexivity].
Defined.

(** X10 for "P1": Start at 1000, one prompt and one push, End at 2000. *)
Lemma task_saves_its_window_witness :
  exists b : Bundle,
    savedSessions
      (@click_End sample_text 2000
         (on_events [UserPrompt {| ts := 1500; text := "hi"; words := 1; chars := 2 |};
                     PowerUpdate Telemetry.sample_push]
            (click_Start 1000 sample_later)))
    = [b]
    /\ metrics b = [{| ts := 1500; text := "hi"; words := 1; chars := 2 |}]
    /\ rec_taskStartedAt (session_record b) = Some 1000%Z
    /\ rec_taskEndedAt (session_record b) = 2000%Z
    /\ name b = "anon_s1".
Proof.
  destruct (@task_saves_its_window sample_text sample_later 1000 2000
              [UserPrompt {| ts := 1500; text := "hi"; words := 1; chars := 2 |};
               PowerUpdate Telemetry.sample_push])
    as (b & H1 & H2 & H3 & H4 & H5 & _); [reflexivity|lia|].
  exists b. split; [exact H1|]. split; [exact H2|]. split; [exact H3|].
  split; [exact H4|exact H5].
Defined.


(** X13: the task timer.  The duration is never negative, even when the end
    time lies before the start time; it is 0 while no start time is set; for
    an ended task whose end is not before its start it is their difference,
    whatever the time of rendering.  Of a duration that is not negative the
    seconds shown are between 0 and 59, the minutes are not negative, and
    minutes and seconds account for the duration up to the last second. *)
Theorem timer_bounds (now : Z) (s : StudySettings) :
  (0 <= durMs now s)%Z
  /\ (taskStartedAt s = None -> durMs now s = 0%Z)
  /\ (forall t0 t1 : Z,
        taskStartedAt s = Some t0 -> taskEndedAt s = Some t1 ->
        t0 <> 0%Z -> (t0 <= t1)%Z -> durMs now s = (t1 - t0)%Z)
  /\ (0 <= mins (durMs now s))%Z
  /\ (0 <= secs (durMs now s) < 60)%Z
  /\ (mins (durMs now s) * 60000 + secs (durMs now s) * 1000 <= durMs now s
      < mins (durMs now s) * 60000 + secs (durMs now s) * 1000 + 1000)%Z.
Proof.
  assert (Hd : (0 <= durMs now s)%Z).
  { unfold durMs. destruct (Z.eqb _ 0); lia. }
  split; [exact Hd|]. split; [|split].
  - intros Hs. unfold durMs. now rewrite Hs.
  - intros t0 t1 H0 H1 Hne Hle. unfold durMs. rewrite H0, H1. simpl.
    apply Z.eqb_neq in Hne. rewrite Hne. lia.
  - unfold mins, secs. generalize dependent (durMs now s). intros d Hd.
    rewrite Z.rem_mod_nonneg by lia.
    pose proof (Z.div_mod d 60000 ltac:(lia)) as Hdm.
    pose proof (Z.mod_pos_bound d 60000 ltac:(lia)) as Hm.
    pose proof (Z.div_mod (d mod 60000) 1000 ltac:(lia)) as Hdm2.
    pose proof (Z.mod_pos_bound (d mod 60000) 1000 ltac:(lia)) as Hm2.
    assert (0 <= d / 60000)%Z by (apply Z.div_pos; lia).
    assert (0 <= d mod 60000 / 1000)%Z by (apply Z.div_pos; lia).
    assert (d mod 60000 / 1000 < 60)%Z by (apply Z.div_lt_upper_bound; lia).
    repeat split; lia.
Qed.

(** X13 for a task started at 1000 and ended at 126500, rendered at any
    later time: 2 minutes and 5 seconds. *)
Lemma timer_bounds_witness :
  durMs 999999 {| participantId := "P1"; group := control; session := session1;
                  taskStartedAt := Some 1000%Z; taskEndedAt := Some 126500%Z |}
  = 125500%Z
  /\ mins 125500 = 2%Z /\ secs 125500 = 5%Z.
Proof.
  destruct (timer_bounds 999999
              {| participantId := "P1"; group := control; session := session1;
                 taskStartedAt := Some 1000%Z; taskEndedAt := Some 126500%Z |})
    as (_ & _ & H & _).
  split; [rewrite (H 1000%Z 126500%Z eq_refl eq_refl); lia|].
  split; reflexivity.
Defined.

End ControlsFacts.

(** ** Submissions seen from [App] *)

Module WiringFacts.

Import Study Wiring.

(** X14: a submission seen from [App].  A prompt that reaches the backend
    adds exactly one prompt metric, whether or not a task is running, sets
    the model in use to the resolved model and hands [App] the pane's
    transcript, whatever the stream does; the study settings, the storage
    and the energy state are not touched.  Reset then asks the backend to
    reset exactly that model.  A prompt sent while no model is resolved
    records no metric and leaves the model in use as it was. *)
Theorem send_then_reset (now : Z) (resp : Chat.Response) (r : Modes.Registry)
    (text : string) (pane : Chat.Pane) (a : App) :
  JS.trim text <> "" ->
  (forall m : string,
     Chat.effective_chat_model (Chat.thinkingMode pane) r = Some m -> m <> "" ->
     promptMetrics (snd (send now resp r text (pane, a)))
     = promptMetrics a
       ++ [{| ts := now; text := text;
              words := JS.split_space_length (JS.trim text);
              chars := String.length text |}]
     /\ currentModel (snd (send now resp r text (pane, a))) = Some m
     /\ messages (snd (send now resp r text (pane, a)))
        = Chat.messages (fst (send now resp r text (pane, a)))
     /\ study (snd (send now resp r text (pane, a))) = study a
     /\ localStorage (snd (send now resp r text (pane, a))) = localStorage a
     /\ energy (snd (send now resp r text (pane, a))) = energy a
     /\ chatResets (handleResetAll (snd (send now resp r text (pane, a))))
        = chatResets a ++ [m])
  /\ (JS.truthy (Chat.effective_chat_model (Chat.thinkingMode pane) r) = false ->
      promptMetrics (snd (send now resp r text (pane, a))) = promptMetrics a
      /\ currentModel (snd (send now resp r text (pane, a))) = currentModel a
      /\ chatResets (handleResetAll (snd (send now resp r text (pane, a))))
         = chatResets (handleResetAll a)).
Proof.
  intros Htext. unfold send. cbn [fst snd]. split.
  - intros m Hm Hne.
    destruct (ConsumerFacts.handleSend_reports now resp (Chat.props_of r) text pane m
                Htext Hm Hne) as (Hp & Hc).
    destruct (Chat.handleSend now resp (Chat.props_of r) text pane) as [pane' eff].
    cbn [fst snd] in *. unfold deliver. rewrite Hp, Hc. simpl.
    destruct (String.eqb_spec m ""); [contradiction|]. repeat split.
  - intros Hm.
    destruct (ConsumerFacts.handleSend_unresolved now resp (Chat.props_of r) text pane
                Htext Hm) as (Hp & Hc).
    destruct (Chat.handleSend now resp (Chat.props_of r) text pane) as [pane' eff].
    cbn [fst snd] in *. unfold deliver. rewrite Hp, Hc. repeat split.
Qed.

(** X14 for "hello world" in the fast mode of the sample registry, on the
    broken sample stream, in a freshly mounted [App] with no task started:
    one metric, and Reset asks to reset "mistral". *)
Lemma send_then_reset_witness :
  length (promptMetrics
            (snd (send 5 Stream.sample_broken Chat.sample_registry "hello world"
                    (Chat.mounted, sample_later)))) = 1
  /\ chatResets
       (handleResetAll
          (snd (send 5 Stream.sample_broken Chat.sample_registry "hello world"
                  (Chat.mounted, sample_later)))) = ["mistral"].
Proof.
  destruct (send_then_reset 5 Stream.sample_broken Chat.sample_registry "hello world"
              Chat.mounted sample_later) as (H & _); [discriminate|].
  destruct (H "mistral" eq_refl) as (H1 & _ & _ & _ & _ & _ & H2); [discriminate|].
  split; [rewrite H1; reflexivity|exact H2].
Defined.

End WiringFacts.

(** ** The impact grade *)

Module GradesFacts.

Import Grades.

#[local] Open Scope float_scope.

(** [SFleb] is transitive. *)
Lemma SFleb_trans (x y z : spec_float) :
  SFleb x y = true -> SFleb y z = true -> SFleb x z = true.
Proof.
  unfold SFleb.
  destruct x as [a|a| |a m e], y as [b|b| |b n f], z as [c|c| |c k g];
    cbn [SFcompare]; try discriminate; try reflexivity;
    repeat match goal with s : bool |- _ => destruct s end;
    try discriminate; try reflexivity.
  all: change (PosDef.Pos.compare_cont Eq m n) with (Pos.compare m n);
    change (PosDef.Pos.compare_cont Eq n k) with (Pos.compare n k);
    change (PosDef.Pos.compare_cont Eq m k) with (Pos.compare m k).
  all: destruct (Z.compare_spec e f), (Z.compare_spec f g), (Z.compare_spec e g);
    try discriminate; try reflexivity; try (exfalso; lia).
  all: destruct (Pos.compare_spec m n), (Pos.compare_spec n k), (Pos.compare_spec m k);
    cbn [CompOpp]; try discriminate; try reflexivity; try (exfalso; lia).
Qed.

Lemma le_trans (x y z : JS.number) :
  JS.le x y = true -> JS.le y z = true -> JS.le x z = true.
Proof. unfold JS.le. rewrite !FloatAxioms.leb_spec. apply SFleb_trans. Qed.

Lemma le_nan (x c : JS.number) : PrimFloat.is_nan x = true -> JS.le x c = false.
Proof.
  intros Hn. destruct (JS.le x c) eqn:E; [|reflexivity].
  apply NumberFacts.leb_not_nan in E as [E _]. congruence.
Qed.

(** A larger value never gets a better grade. *)
Lemma grade_of_monotone (v w : JS.number) :
  JS.le v w = true -> rank (grade_of v) <= rank (grade_of w).
Proof.
  intros Hvw. unfold grade_of.
  assert (H : forall c, JS.le w c = true -> JS.le v c = true)
    by (intros c; apply le_trans, Hvw).
  destruct (JS.le w 0.05) eqn:W1; [rewrite (H _ W1); simpl; lia|].
  destruct (JS.le v 0.05); [simpl; destruct (JS.le w 0.15), (JS.le w 0.5), (JS.le w 1.5);
                            simpl; lia|].
  destruct (JS.le w 0.15) eqn:W2; [rewrite (H _ W2); simpl; lia|].
  destruct (JS.le v 0.15); [simpl; destruct (JS.le w 0.5), (JS.le w 1.5); simpl; lia|].
  destruct (JS.le w 0.5) eqn:W3; [rewrite (H _ W3); simpl; lia|].
  destruct (JS.le v 0.5); [simpl; destruct (JS.le w 1.5); simpl; lia|].
  destruct (JS.le w 1.5) eqn:W4; [rewrite (H _ W4); simpl; lia|].
  destruct (JS.le v 1.5); simpl; lia.
Qed.

(** X15: the impact grade.  With fewer than 5 prompts, or no prompt count,
    the grade is A whatever the energy figures are.  From 5 prompts on the
    grade depends on the energy only through the graded value (the rolling
    average if it is a number, else the session total, else the latest
    prompt, else 0), a larger graded value never gets a better grade, no
    known figure at all is graded A, and a value that is [NaN] is graded
    E. *)
Theorem computeGrade_bands (sessionTotalWh latestPromptWh last5AvgWh : option JS.number)
    (promptCount : option nat) :
  (promptCount = None \/ (exists n, promptCount = Some n /\ n < 5) ->
   computeGrade sessionTotalWh latestPromptWh promptCount last5AvgWh = A)
  /\ (forall n : nat,
        promptCount = Some n -> 5 <= n ->
        computeGrade sessionTotalWh latestPromptWh promptCount last5AvgWh
        = grade_of (graded_value sessionTotalWh latestPromptWh last5AvgWh))
  /\ (forall v w : JS.number, JS.le v w = true -> rank (grade_of v) <= rank (grade_of w))
  /\ grade_of (graded_value None None None) = A
  /\ (forall v : JS.number, PrimFloat.is_nan v = true -> grade_of v = E).
Proof.
  split; [|split; [|split; [|split]]].
  - intros [->|(n & -> & Hn)]; [reflexivity|]. unfold computeGrade.
    destruct (Nat.ltb_spec n 5); [|lia]. now rewrite orb_true_r.
  - intros n -> Hn. unfold computeGrade.
    destruct (Nat.eqb_spec n 0); [lia|]. destruct (Nat.ltb_spec n 5); [lia|].
    reflexivity.
  - exact grade_of_monotone.
  - reflexivity.
  - intros v Hv. unfold grade_of. now rewrite !(le_nan v _ Hv).
Qed.

(** X15 with 4 and with 7 prompts at a rolling average of 0.4 Wh and a
    session total of 3 Wh: A, then C, which is not better than the grade of
    0.1 Wh. *)
Lemma computeGrade_bands_witness :
  computeGrade (Some 3) (Some 0.4) (Some 4%nat) (Some 0.4) = A
  /\ computeGrade (Some 3) (Some 0.4) (Some 7%nat) (Some 0.4) = C
  /\ rank (grade_of 0.1) <= rank (grade_of 0.4).
Proof.
  destruct (computeGrade_bands (Some 3) (Some 0.4) (Some 0.4) (Some 4%nat)) as (H1 & _).
  destruct (computeGrade_bands (Some 3) (Some 0.4) (Some 0.4) (Some 7%nat))
    as (_ & H2 & H3 & _).
  split; [apply H1; right; exists 4%nat; split; [reflexivity|lia]|].
  split; [rewrite (H2 7%nat eq_refl); [reflexivity|lia]|].
  apply H3. reflexivity.
Defined.

(** X16: the grade in the sidebar of the chat tab.  [App] hands its rolling
    average to [Sidebar] under the name [last2AvgWh], which [Sidebar] does
    not read; so from 5 prompts on, after any telemetry push, the grade shown
    is the grade of the session total of that push (0 if it had none),
    whatever the rolling window holds, and with fewer than 5 prompts it is
    A. *)
Theorem sidebar_grade_of_session_total (s : Telemetry.Summary) (a : Study.App) :
  (5 <= length (Study.promptMetrics a) ->
   sidebar_grade (Study.onPowerUpdate s a)
   = grade_of (JS.nullish_zero (Telemetry.session_total_Wh s)))
  /\ (length (Study.promptMetrics a) < 5 ->
      sidebar_grade (Study.onPowerUpdate s a) = A).
Proof.
  unfold sidebar_grade, computeGrade.
  change (Study.promptMetrics (Study.onPowerUpdate s a)) with (Study.promptMetrics a).
  split; intros Hn;
    destruct (length (Study.promptMetrics a)) as [|[|[|[|[|n]]]]];
    try (exfalso; lia); reflexivity.
Qed.

(** X16 with six prompts recorded: after a push of 0.3 Wh for the prompt and
    2.4 Wh for the session the sidebar shows E, the grade of 2.4 Wh. *)
Lemma sidebar_grade_of_session_total_witness :
  sidebar_grade
    (Study.onPowerUpdate Telemetry.sample_push
       (Study.on_events
          (repeat (Study.UserPrompt {| Study.ts := 1; Study.text := "hi";
                                       Study.words := 1; Study.chars := 2 |}) 6)
          Study.sample_later)) = E.
Proof.
  destruct (sidebar_grade_of_session_total Telemetry.sample_push
              (Study.on_events
                 (repeat (Study.UserPrompt {| Study.ts := 1; Study.text := "hi";
                                              Study.words := 1; Study.chars := 2 |}) 6)
                 Study.sample_later)) as (H & _).
  rewrite H; [reflexivity|]. simpl. lia.
Defined.

End GradesFacts.

(** ** Facts about the pinned chats *)

Module PinnedFacts.

Import Pinned.

Lemma includes_remove_first_ne (x n : string) (l : list string) :
  x <> n -> includes x (remove_first n l) = includes x l.
Proof.
  intros Hne. induction l as [|y r IH]; [reflexivity|].
  cbn [remove_first]. destruct (String.eqb y n) eqn:E.
  - apply String.eqb_eq in E. rewrite E. unfold includes. cbn [existsb].
    apply String.eqb_neq in Hne. now rewrite Hne.
  - unfold includes in *. cbn [existsb]. now rewrite IH.
Qed.

Lemma includes_false_remove_first (x n : string) (l : list string) :
  includes x l = false -> includes x (remove_first n l) = false.
Proof.
  induction l as [|y r IH]; [reflexivity|].
  unfold includes in *. cbn [existsb remove_first]. intros H.
  apply orb_false_iff in H as (H1 & H2).
  destruct (String.eqb y n); [exact H2|].
  cbn [existsb]. rewrite H1. now apply IH.
Qed.

Lemma includes_remove_first_eq (n : string) (l : list string) :
  once_each l -> includes n (remove_first n l) = false.
Proof.
  induction l as [|y r IH]; [reflexivity|].
  intros (Hy & Hr). cbn [remove_first]. destruct (String.eqb y n) eqn:E.
  - apply String.eqb_eq in E. rewrite <- E. exact Hy.
  - unfold includes in *. cbn [existsb]. rewrite String.eqb_sym, E. now apply IH.
Qed.

Lemma once_each_remove_first (n : string) (l : list string) :
  once_each l -> once_each (remove_first n l).
Proof.
  induction l as [|y r IH]; [trivial|].
  intros (Hy & Hr). cbn [remove_first]. destruct (String.eqb y n); [exact Hr|].
  split; [now apply includes_false_remove_first|now apply IH].
Qed.

Section WithNames.

Context `{NamesText}.
Hypothesis Hrt : reads_back.

Lemma get_set (l : list string) (ls : gmap string string) :
  getPinnedChats (setPinnedChats l ls) = l.
Proof.
  unfold getPinnedChats, setPinnedChats. rewrite lookup_insert_eq.
  destruct (Hrt l) as (Hne & Hp). cbn [JS.truthy].
  apply String.eqb_neq in Hne. rewrite Hne. cbn. now rewrite Hp.
Qed.

Lemma toggle_list (n : string) (ls : gmap string string) :
  getPinnedChats (snd (togglePinnedChat n ls))
  = if includes n (getPinnedChats ls) then remove_first n (getPinnedChats ls)
    else n :: getPinnedChats ls.
Proof.
  unfold togglePinnedChat. destruct (includes n (getPinnedChats ls));
    cbn [snd]; apply get_set.
Qed.

Lemma toggle_once_each (n : string) (ls : gmap string string) :
  once_each (getPinnedChats ls) ->
  once_each (getPinnedChats (snd (togglePinnedChat n ls))).
Proof.
  intros Ho. rewrite toggle_list.
  destruct (includes n (getPinnedChats ls)) eqn:E.
  - now apply once_each_remove_first.
  - split; [exact E|exact Ho].
Qed.

Lemma toggle_pinned (x n : string) (ls : gmap string string) :
  once_each (getPinnedChats ls) ->
  isChatPinned x (snd (togglePinnedChat n ls))
  = xorb (isChatPinned x ls) (String.eqb x n).
Proof.
  intros Ho. unfold isChatPinned. rewrite toggle_list.
  destruct (String.eqb x n) eqn:Exn.
  - apply String.eqb_eq in Exn. subst x.
    destruct (includes n (getPinnedChats ls)) eqn:E.
    + now apply includes_remove_first_eq.
    + unfold includes. cbn [existsb]. now rewrite String.eqb_refl.
  - rewrite xorb_false_r. apply String.eqb_neq in Exn.
    destruct (includes n (getPinnedChats ls)) eqn:E.
    + now apply includes_remove_first_ne.
    + unfold includes. cbn [existsb]. apply String.eqb_neq in Exn.
      now rewrite Exn.
Qed.

Lemma toggle_other_keys (n key : string) (ls : gmap string string) :
  key <> PINNED_CHATS_KEY ->
  snd (togglePinnedChat n ls) !! key = ls !! key.
Proof.
  intros Hne. unfold togglePinnedChat, setPinnedChats.
  destruct (includes n (getPinnedChats ls)); cbn [snd];
    now apply lookup_insert_ne.
Qed.

Lemma toggles_once_each (names : list string) (ls : gmap string string) :
  once_each (getPinnedChats ls) -> once_each (getPinnedChats (toggles names ls)).
Proof.
  revert ls. induction names as [|n names IH]; intros ls Ho; [exact Ho|].
  apply (IH (snd (togglePinnedChat n ls))), toggle_once_each, Ho.
Qed.

End WithNames.

Lemma once_each_NoDup (l : list string) : once_each l <-> NoDup l.
Proof.
  induction l as [|y r IH]; [split; [intros _; constructor|intros _; exact I]|].
  assert (Hin : includes y r = false <-> y ∉ r).
  { clear IH. induction r as [|z r IHr].
    - split; [intros _ Hc; inversion Hc|reflexivity].
    - unfold includes in *. cbn [existsb]. rewrite orb_false_iff, IHr.
      rewrite String.eqb_neq, not_elem_of_cons. reflexivity. }
  cbn [once_each]. rewrite NoDup_cons, Hin, IH. reflexivity.
Qed.

(** X17: pinning is a toggle.  Where [JSON.parse] reads back what
    [JSON.stringify] wrote and no name is stored twice, after any sequence
    of toggles a chat is pinned exactly when it was pinned before and has
    been toggled an even number of times, or was not pinned before and has
    been toggled an odd number of times; no name is stored twice afterwards
    either; one toggle answers [true] exactly when the chat was not pinned
    before it; and no other key of the storage is touched. *)
Theorem pinned_iff_toggled_odd `{NamesText} (names : list string)
    (ls : gmap string string) :
  reads_back ->
  NoDup (getPinnedChats ls) ->
  (forall x : string,
     isChatPinned x (toggles names ls)
     = xorb (isChatPinned x ls) (Nat.odd (times x names)))
  /\ NoDup (getPinnedChats (toggles names ls))
  /\ (forall x : string,
        fst (togglePinnedChat x (toggles names ls))
        = negb (isChatPinned x (toggles names ls)))
  /\ (forall key : string,
        key <> PINNED_CHATS_KEY -> toggles names ls !! key = ls !! key).
Proof.
  intros Hrt Hnd. apply once_each_NoDup in Hnd.
  split; [|split; [|split]].
  - intros x. revert ls Hnd. induction names as [|n names IH]; intros ls Hnd.
    + cbn. now rewrite xorb_false_r.
    + change (toggles (n :: names) ls)
        with (toggles names (snd (togglePinnedChat n ls))).
      rewrite IH by now apply toggle_once_each.
      rewrite toggle_pinned by assumption.
      unfold times. cbn [List.filter].
      destruct (String.eqb x n); cbn [length].
      * rewrite Nat.odd_succ, <- Nat.negb_odd.
        now destruct (isChatPinned x ls), (Nat.odd _).
      * now rewrite xorb_false_r.
  - apply once_each_NoDup. now apply toggles_once_each.
  - intros x. unfold togglePinnedChat, isChatPinned.
    now destruct (includes x (getPinnedChats (toggles names ls))).
  - intros key Hne. revert ls Hnd.
    induction names as [|n names IH]; intros ls Hnd; [reflexivity|].
    change (toggles (n :: names) ls)
      with (toggles names (snd (togglePinnedChat n ls))).
    rewrite IH by now apply toggle_once_each.
    now apply toggle_other_keys.
Qed.

Lemma append_snoc (cur s : string) (ch : ascii) :
  (cur +:+ String ch "") +:+ s = cur +:+ String ch s.
Proof.
  induction cur as [|c cur IH]; [reflexivity|].
  change (String c ((cur +:+ String ch "") +:+ s) = String c (cur +:+ String ch s)).
  now rewrite IH.
Qed.

Lemma sample_name_go (s cur rest : string) (acc : list string) :
  sample_parse_go cur acc (sample_name s +:+ rest)
  = sample_parse_go "" ((cur +:+ s) :: acc) rest.
Proof.
  revert cur. induction s as [|ch s IH]; intros cur.
  - change (sample_name "" +:+ rest) with (String ";" rest).
    cbn [sample_parse_go]. change (Ascii.eqb ";" ";") with true. cbv iota.
    now rewrite ChatInputFacts.append_empty_r.
  - change (sample_name (String ch s) +:+ rest)
      with (String "c" (String ch (sample_name s +:+ rest))).
    cbn [sample_parse_go]. change (Ascii.eqb "c" ";") with false. cbv iota.
    rewrite IH. now rewrite append_snoc.
Qed.

Lemma sample_names_go (l acc : list string) :
  sample_parse_go "" acc (sample_names l) = Some (rev acc ++ l).
Proof.
  revert acc. induction l as [|n l IH]; intros acc.
  - cbn. now rewrite app_nil_r.
  - cbn [sample_names]. rewrite sample_name_go, IH. cbn [rev].
    now rewrite <- app_assoc.
Qed.

Lemma sample_reads_back : @reads_back sample_names_text.
Proof.
  intros l. split; [discriminate|].
  cbn [parse_names stringify_names sample_names_text].
  change (Ascii.eqb "[" "[") with true. cbv iota.
  apply sample_names_go.
Qed.

(** X17 over an empty storage, for the toggles of "a", "b" and "a" again:
    "b" is pinned, "a" is not. *)
Lemma pinned_iff_toggled_odd_witness :
  @isChatPinned sample_names_text "b" (@toggles sample_names_text ["a"; "b"; "a"] ∅)
  = true
  /\ @isChatPinned sample_names_text "a"
       (@toggles sample_names_text ["a"; "b"; "a"] ∅) = false.
Proof.
  assert (E : @getPinnedChats sample_names_text ∅ = []).
  { unfold getPinnedChats. rewrite lookup_empty. reflexivity. }
  destruct (@pinned_iff_toggled_odd sample_names_text ["a"; "b"; "a"] ∅
              sample_reads_back) as (H & _).
  { rewrite E. constructor. }
  split; [rewrite (H "b")|rewrite (H "a")]; unfold isChatPinned; rewrite E;
    reflexivity.
Defined.

End PinnedFacts.

(** ** Facts about the web tab *)

Module WebChatFacts.

Import Transcript WebChat.

Lemma exchanges_snoc (t l : list Msg) :
  exchanges t ->
  (exchanges l -> exchanges (l ++ t))
  /\ (forall x, exchanges (x :: l) -> exchanges (x :: l ++ t)).
Proof.
  intros Ht. induction l as [|y r (IH1 & IH2)].
  - split; [intros _; exact Ht|intros x Hx; destruct Hx].
  - split; [exact (IH2 y)|].
    intros x (H1 & H2 & H3 & H4 & H5).
    change (role x = user /\ text x <> "" /\ role y = bot /\ text y <> ""
            /\ exchanges (r ++ t)).
    repeat (split; [assumption|]). now apply IH1.
Qed.

Lemma truthy_nonempty (v : option string) :
  JS.truthy v = true -> default "" v <> "".
Proof.
  destruct v as [s|]; [|discriminate]. cbn. intros Hs E. subst s. discriminate Hs.
Qed.

Lemma warning_nonempty (s : string) : warning +:+ s <> "".
Proof. intros E. discriminate E. Qed.

(** The bot never answers with an empty text. *)
Lemma answer_nonempty (reply : Reply) : answer reply <> "".
Proof.
  destruct reply as [|[r|]]; cbn [answer].
  - discriminate.
  - destruct (ok r && JS.truthy (response r)) eqn:E.
    + apply andb_true_iff in E as (_ & E). now apply truthy_nonempty.
    + apply warning_nonempty.
  - apply warning_nonempty.
Qed.

Lemma not_ignored (model : option string) (text : string) :
  ignored model text = false ->
  JS.trim text <> "" /\ default "" model <> "".
Proof.
  unfold ignored. intros E. apply orb_false_iff in E as (Et & Em).
  apply negb_false_iff in Et, Em.
  split; [exact (truthy_nonempty _ Et)|exact (truthy_nonempty _ Em)].
Qed.

Lemma mounted_shaped : shaped mounted.
Proof.
  split; [exists opening, []; split; reflexivity|].
  split; [constructor; [discriminate|constructor]|].
  split; [constructor|].
  split; [constructor; [discriminate|constructor]|].
  split; [constructor|reflexivity].
Qed.

Lemma step_shaped (x : Step) (p : Pane) : shaped p -> shaped (step x p).
Proof.
  intros Hp.
  destruct Hp as ((g & rest & Hm & Hg) & Ht & Hr & Hu & Hz & Hl).
  assert (Hp : shaped p).
  { split; [exists g, rest; split; assumption|]. repeat (split; [assumption|]).
    exact Hl. }
  destruct x as [r text|reply|r|]; cbn [step].
  - unfold submit. destruct (ignored _ text) eqn:E; [exact Hp|].
    apply not_ignored in E as (Et & Em).
    split; [|split; [|split; [|split; [|split; [exact Hz|discriminate]]]]];
      cbn [messages requests].
    + exists g, (rest ++ [msg user (JS.trim text)]). now rewrite Hm.
    + apply Forall_app_2; [exact Ht|]. constructor; [exact Et|constructor].
    + apply Forall_app_2; [exact Hr|]. constructor; [|constructor].
      split; [exact Et|]. split; [exact Em|apply ChatInputFacts.trim_idempotent].
    + apply Forall_app_2.
      * eapply Forall_impl; [exact Hu|]. intros m Hin Hrole.
        rewrite map_app. apply in_or_app. left. now apply Hin.
      * constructor; [|constructor].
        intros _. rewrite map_app. apply in_or_app. right. now left.
  - unfold settle. destruct (waiting p) as [|n]; [exact Hp|].
    split; [|split; [|split; [exact Hr|split; [|split; [exact Hz|reflexivity]]]]];
      cbn [messages requests].
    + exists g, (rest ++ [msg bot (answer reply)]). now rewrite Hm.
    + apply Forall_app_2; [exact Ht|].
      constructor; [apply answer_nonempty|constructor].
    + apply Forall_app_2; [exact Hu|]. constructor; [discriminate|constructor].
  - unfold reset_call. destruct (negb _) eqn:Em; [exact Hp|].
    apply negb_false_iff in Em.
    split; [exists g, rest; split; assumption|].
    split; [exact Ht|]. split; [exact Hr|]. split; [exact Hu|].
    split; [|exact Hl].
    cbn [resets]. apply Forall_app_2; [exact Hz|].
    constructor; [exact (truthy_nonempty _ Em)|constructor].
  - unfold reset_done. destruct (resetting p) as [|n]; [exact Hp|].
    split; [exists reset_notice, []; split; reflexivity|].
    split; [constructor; [discriminate|constructor]|].
    split; [exact Hr|].
    split; [constructor; [discriminate|constructor]|].
    split; [exact Hz|exact Hl].
Qed.

Lemma act_settled (x : Action) (p : Pane) : settled p -> settled (act x p).
Proof.
  intros (Hw & Hq & Hl & g & rest & Hm & Hg & Hx).
  assert (Hp : settled p).
  { split; [exact Hw|]. split; [exact Hq|]. split; [exact Hl|].
    exists g, rest. repeat (split; [assumption|]). exact Hx. }
  destruct x as [r reply text|r]; cbn [act].
  - unfold handleSend. destruct (ignored _ text) eqn:E; [exact Hp|].
    unfold submit. rewrite E. unfold settle. cbn [waiting messages].
    apply not_ignored in E as (Et & Em).
    split; [exact Hw|]. split; [exact Hq|]. split; [reflexivity|].
    exists g, (rest ++ [msg user (JS.trim text); msg bot (answer reply)]).
    cbn [messages]. split; [rewrite Hm, <- app_assoc; reflexivity|].
    split; [exact Hg|].
    apply exchanges_snoc; [|exact Hx].
    split; [reflexivity|]. split; [exact Et|].
    split; [reflexivity|]. split; [apply answer_nonempty|exact I].
  - unfold handleReset. destruct (negb _) eqn:Em; [exact Hp|].
    unfold reset_call. rewrite Em. unfold reset_done. cbn [resetting].
    split; [exact Hw|]. split; [exact Hq|]. split; [exact Hl|].
    exists reset_notice, []. repeat split.
Qed.

(** X18: what the web tab keeps under any interleaving.  [handleSend] and
    [handleReset] wait for the backend while the composer and the reset
    button stay enabled, so their parts before and after the wait may
    interleave in any order.  After any such steps, whatever the backend
    answers and whatever model the registry resolves at each of them: the
    transcript starts with a bot message and holds no empty message; every
    request made carried a trimmed prompt and a model, neither empty; every
    user message shown is the prompt of a request that was made; every
    reset named a model; and nothing is loading once no request is waiting.
    The order of the messages is not kept: of two submissions made before
    either is answered, both user messages come before both answers. *)
Theorem web_steps_shape (xs : list Step) :
  shaped (steps xs mounted)
  /\ (forall (m : option string) (t1 t2 : string) (r1 r2 : Reply) (p : Pane),
        ignored m t1 = false -> ignored m t2 = false ->
        messages (settle r2 (settle r1 (submit m t2 (submit m t1 p))))
        = messages p ++ [msg user (JS.trim t1); msg user (JS.trim t2);
                         msg bot (answer r1); msg bot (answer r2)]).
Proof.
  split.
  - assert (Hs : forall p, shaped p -> shaped (steps xs p)).
    { induction xs as [|x xs IH]; intros p Hp; [exact Hp|].
      apply (IH (step x p)), step_shaped, Hp. }
    apply Hs, mounted_shaped.
  - intros m t1 t2 r1 r2 p E1 E2. unfold submit. rewrite E1, E2.
    unfold settle. cbn [waiting messages]. now rewrite <- !app_assoc.
Qed.

(** X18 for two submissions " a " and "b" from the mounted pane, the first
    of which fails and the second of which is answered by [null]. *)
Lemma web_steps_shape_witness :
  messages
    (settle (Json None)
       (settle Throws (submit (Some "llama3.1") "b" (submit (Some "llama3.1") " a " mounted))))
  = [opening; msg user "a"; msg user "b"; msg bot failure;
     msg bot (warning +:+ no_response)].
Proof.
  destruct (web_steps_shape []) as (_ & H).
  rewrite (H (Some "llama3.1") " a " "b" Throws (Json None) mounted);
    reflexivity.
Defined.

(** X19: the web transcript when the handlers run one after the other.
    After any sequence of submissions and resets of which each is finished
    before the next begins: nothing is waiting or loading, and the
    transcript is one bot message followed by exchanges of a user message
    and a bot message, none of them empty.  While the registry resolves no
    model for the web mode, a submission and a reset change nothing: no
    message is shown and no request is made. *)
Theorem web_acts_alternate (xs : list Action) :
  settled (acts xs mounted)
  /\ (forall (r : Modes.Registry) (reply : Reply) (text : string) (p : Pane),
        JS.truthy (Modes.mode_model r Modes.web) = false ->
        act (Send r reply text) p = p /\ act (ResetContext r) p = p).
Proof.
  split.
  - assert (Hs : forall p, settled p -> settled (acts xs p)).
    { induction xs as [|x xs IH]; intros p Hp; [exact Hp|].
      apply (IH (act x p)), act_settled, Hp. }
    apply Hs. split; [reflexivity|]. split; [reflexivity|]. split; [reflexivity|].
    exists opening, []. repeat split.
  - intros r reply text p Hm. cbn [act]. unfold handleSend, handleReset, ignored.
    rewrite Hm. cbn [negb]. rewrite orb_true_r. split; reflexivity.
Qed.

(** X19 for a registry with nothing loaded: a submission changes nothing. *)
Lemma web_acts_alternate_witness :
  act (Send Chat.empty_registry Throws "hello") mounted = mounted.
Proof.
  destruct (web_acts_alternate []) as (_ & H).
  destruct (H Chat.empty_registry Throws "hello" mounted) as (H1 & _);
    [reflexivity|exact H1].
Defined.

End WebChatFacts.
